(** * Web scraper pipeline: a shallow embedding of [web_scraper/src/main.py]

    The development follows the module class by class:
    [ScraperConfig], [HTTPClient] (pacing gate and retry loop),
    [HTMLParser] (the handlers plugged into the standard markup parser),
    [DataExtractor], [ResultHandler] (JSON / CSV sink), [Logger],
    [scrape_url] and the per-URL loop of [main].

    Effects are explicit.  Everything the module reaches outside itself
    (wall clock, network, file system, log) lives in a [World]; a
    computation is a function from a world to a result-or-exception
    together with the next world.  Wall-clock time is an exact rational
    number of seconds on a logical clock: [time.sleep x] advances it by
    [x], a network call by the latency the network decides. *)

From Stdlib Require Import ZArith QArith Lqa Lia List String Ascii Strings.Byte.
From Stdlib Require Import DecimalString.
From stdpp Require Import base option gmap strings list fin_maps.

Open Scope string_scope.
Open Scope Z_scope.

(** ** Python values this module manipulates *)

(** Exception classes that matter to the control flow of the module.
    All of them derive from [Exception]; [HTTPError] and
    [ContentTooShortError] derive from [URLError]; [OtherException]
    stands for any class that does not. *)
Inductive ExcClass :=
| URLError | HTTPError | ContentTooShortError
| ValueError | TypeError | TimeoutError | OSError
| PlainException
| OtherException (name : string).

(** An exception object: its class and [str(e)]. *)
Record Exc := mkExc { exc_class : ExcClass; exc_str : string }.

Inductive Result (A : Type) :=
| Ok (a : A)
| Raise (e : Exc).
Arguments Ok {A} a.
Arguments Raise {A} e.

(** What a caller may hand to a text-consuming function: Python does not
    separate the two statically. *)
Inductive PyText :=
| PyStr (s : string)
| PyBytes (b : list byte).

(** An attribute value as the markup parser reports it: [None] for an
    attribute written without a value, as in [<a href>]. *)
Abbreviation AttrValue := (option string).

(** The double-quote character. *)
Definition dquote : string := String "034"%char EmptyString.

(** The exception of [str + bytes]. *)
Definition concat_bytes_error : Exc :=
  mkExc TypeError
    ("can only concatenate str (not " ++ dquote ++ "bytes" ++ dquote ++ ") to str").

(** [str(n)] for a Python int. *)
Definition str_of_int (n : Z) : string := NilZero.string_of_int (Z.to_int n).

(** [c.isspace()] for a code point below 256. *)
Definition isspace (c : ascii) : bool :=
  let n := nat_of_ascii c in
  ((9 <=? n)%nat && (n <=? 13)%nat) || ((28 <=? n)%nat && (n <=? 32)%nat)
  || (n =? 133)%nat || (n =? 160)%nat.

Fixpoint lstrip (s : string) : string :=
  match s with
  | EmptyString => EmptyString
  | String c r => if isspace c then lstrip r else s
  end.

Fixpoint rstrip (s : string) : string :=
  match s with
  | EmptyString => EmptyString
  | String c r =>
      match rstrip r with
      | EmptyString => if isspace c then EmptyString else String c EmptyString
      | r' => String c r'
      end
  end.

(** [s.strip()] *)
Definition strip (s : string) : string := rstrip (lstrip s).

(** [sep.join(items)]: raises [TypeError] at the first item that is not
    a string. *)
Fixpoint join_from (sep : string) (i : Z) (items : list AttrValue) : Result string :=
  match items with
  | [] => Ok ""
  | None :: _ =>
      Raise (mkExc TypeError
               ("sequence item " ++ str_of_int i ++ ": expected str instance, NoneType found"))
  | Some s :: rest =>
      match rest with
      | [] => Ok s
      | _ => match join_from sep (i + 1) rest with
             | Ok t => Ok (s ++ sep ++ t)
             | Raise e => Raise e
             end
      end
  end.

Definition join (sep : string) (items : list AttrValue) : Result string :=
  join_from sep 0 items.

(** ** Data model *)

Record ScraperConfig := mkConfig {
  user_agent : string;
  delay : Q;
  max_retries : Z;
  timeout : Z;
  output_format : string;
  output_path : string
}.

Record ExtractedData := mkExtracted {
  title : string;
  links : list AttrValue;
  meta : gmap AttrValue AttrValue
}.

Record ScrapingResult := mkResult {
  url : string;
  status : option Z;
  data : option ExtractedData;
  error : option string
}.

(** ** The world outside the module *)

Inductive LogLevel := ERROR | INFO.

Inductive Event :=
| EvSleep (secs : Q)
| EvUrlopen (target agent : string) (tmo : Z) (at_time : Q)
| EvOpen (path : string)
| EvWrite (path text : string)
| EvLog (level : LogLevel) (msg : string).

(** One answer of the network: how long the call took and what
    [response.read()] gave, or the exception raised on the way. *)
Record Response := mkResponse {
  latency : Q;
  outcome : Result (list byte)
}.

Record World := mkWorld {
  now : Q;                                  (* time.time() *)
  served : nat;                             (* urlopen calls made so far *)
  network : string -> nat -> Response;      (* answer to the n-th call, by URL *)
  fs : gmap string string;                  (* files by path *)
  open_error : string -> option Exc;        (* why open(path, 'w') fails, if it does *)
  trace : list Event                        (* effects, oldest first *)
}.

(** Computations: state passing with exceptions. *)
Definition M (A : Type) : Type := World -> Result A * World.

Definition ret {A} (a : A) : M A := fun w => (Ok a, w).
Definition raise {A} (e : Exc) : M A := fun w => (Raise e, w).
Definition bind {A B} (m : M A) (k : A -> M B) : M B :=
  fun w => match m w with
           | (Ok a, w') => k a w'
           | (Raise e, w') => (Raise e, w')
           end.

Declare Scope py_scope.
Delimit Scope py_scope with py.
Notation "'do' x <- m ; k" := (bind m (fun x => k))
  (at level 10, x name, m at level 100, k at level 200) : py_scope.
Notation "'run' m ; k" := (bind m (fun _ => k))
  (at level 10, m at level 100, k at level 200) : py_scope.
Open Scope py_scope.

Definition emit (ev : Event) (w : World) : World :=
  mkWorld (now w) (served w) (network w) (fs w) (open_error w) (trace w ++ [ev]).

Definition time_time : M Q := fun w => (Ok (now w), w).

Definition time_sleep (secs : Q) : M unit := fun w =>
  (Ok tt,
   mkWorld (now w + secs)%Q (served w) (network w) (fs w) (open_error w)
           (trace w ++ [EvSleep secs])).

(** [urllib.request.urlopen(req, timeout=...)] followed by
    [response.read()]: the network answers the call, time passes. *)
Definition urlopen (target agent : string) (tmo : Z) : M (list byte) := fun w =>
  let r := network w target (served w) in
  (outcome r,
   mkWorld (now w + latency r)%Q (S (served w)) (network w) (fs w) (open_error w)
           (trace w ++ [EvUrlopen target agent tmo (now w)])).

(** [a < b] on times. *)
Definition Qltb (a b : Q) : bool :=
  (Qnum a * Z.pos (Qden b) <? Qnum b * Z.pos (Qden a))%Z.

(** ** Logger *)
Module Logger.

(** [logging.basicConfig(...)]: configures the log, nothing the model
    observes. *)
Definition setup_logging : M unit := ret tt.

Definition log_error (message : string) : M unit := fun w =>
  (Ok tt, emit (EvLog ERROR message) w).

Definition log_info (message : string) : M unit := fun w =>
  (Ok tt, emit (EvLog INFO message) w).

End Logger.

(** ** HTTPClient *)
Module HTTPClient.

Record t := mk {
  config : ScraperConfig;
  last_request_time : Q
}.

Definition __init__ (cfg : ScraperConfig) : t := mk cfg 0%Q.

(** Enforce delay between requests to avoid rate limiting. *)
Definition _enforce_delay (self : t) : M t :=
  do t0 <- time_time;
  let elapsed := (t0 - last_request_time self)%Q in
  run (if Qltb elapsed (delay (config self))
       then time_sleep (delay (config self) - elapsed)%Q
       else ret tt);
  do t1 <- time_time;
  ret (mk (config self) t1).

(** Whether an exception is caught by
    [except (urllib.error.URLError, urllib.error.HTTPError)]. *)
Definition is_url_error (e : Exc) : bool :=
  match exc_class e with
  | URLError | HTTPError | ContentTooShortError => true
  | _ => false
  end.

Section Fetch.

(** [urllib.request.Request(url, headers=...)] rejects some URLs when the
    request object is built (one without a scheme, with [ValueError]);
    [None] means the object was built. *)
Variable Request_error : string -> option Exc.

(** The [for attempt in range(max_retries)] loop, from iteration
    [attempt] on with [remaining] iterations left; falling out of the
    loop reaches the final [raise]. *)
Fixpoint fetch_loop (self : t) (target : string) (remaining : nat) (attempt : Z)
  : M (list byte) :=
  match remaining with
  | O => raise (mkExc PlainException "Unexpected error in fetch")
  | S rest =>
      do self' <- _enforce_delay self;
      fun w =>
        match urlopen target (user_agent (config self)) (timeout (config self)) w with
        | (Ok body, w') => (Ok body, w')
        | (Raise e, w') =>
            if is_url_error e then
              if (attempt =? max_retries (config self) - 1)%Z then
                (Raise (mkExc PlainException
                          ("Failed after " ++ str_of_int (max_retries (config self))
                           ++ " attempts: " ++ exc_str e)), w')
              else
                (run time_sleep (inject_Z (2 ^ attempt));
                 fetch_loop self' target rest (attempt + 1)) w'
            else (Raise e, w')
        end
  end.

(** Fetch content from a URL with retry logic. *)
Definition fetch (self : t) (target : string) : M (list byte) :=
  match Request_error target with
  | Some e => raise e
  | None => fetch_loop self target (Z.to_nat (max_retries (config self))) 0
  end.

End Fetch.

End HTTPClient.

(** ** HTMLParser: the handlers plugged into [html.parser.HTMLParser] *)

(** What the base class reports while it scans a document.  A start tag
    comes with its source text, as [get_starttag_text()] later returns
    it, its lower-cased name and its attributes; comments, declarations
    and processing instructions reach handlers this module leaves
    empty. *)
Inductive MarkupEvent :=
| StartTag (text tag : string) (attrs : list (string * AttrValue))
| EndTag (tag : string)
| Data (text : string)
| Ignored.

(** What a scan of a text gives: the events reported, in order, and the
    exception that ended the scan when it did not reach the end of the
    text (the standard parser raises [AssertionError] on a malformed
    marked section such as [<![x]>]). *)
Abbreviation Scanner := (string -> list MarkupEvent * option Exc).

Module HTMLParser.

Record t := mk {
  starttag_text : option string;   (* the base class's last start tag text *)
  title : string;
  links : list AttrValue;
  meta : gmap AttrValue AttrValue
}.

Definition __init__ : t := mk None "" [] ∅.

Definition get_starttag_text (self : t) : option string := starttag_text self.

(** [dict(attrs)]: a later pair with the same name replaces an earlier one. *)
Definition dict (attrs : list (string * AttrValue)) : gmap string AttrValue :=
  fold_left (fun m p => <[fst p := snd p]> m) attrs ∅.

(** Handle start tags in HTML. *)
Definition handle_starttag (self : t) (tag : string)
    (attrs : list (string * AttrValue)) : t :=
  if decide (tag = "a") then
    fold_left
      (fun self p =>
         if decide (fst p = "href")
         then mk (starttag_text self) (title self) (links self ++ [snd p]) (meta self)
         else self)
      attrs self
  else if decide (tag = "meta") then
    let meta_data := dict attrs in
    match meta_data !! "name", meta_data !! "content" with
    | Some name, Some content =>
        mk (starttag_text self) (title self) (links self) (<[name := content]> (meta self))
    | _, _ => self
    end
  else self.

(** Handle data in HTML. *)
Definition handle_data (self : t) (data : string) : t :=
  if decide (get_starttag_text self = Some "<title>")
  then mk (starttag_text self) (strip data) (links self) (meta self)
  else self.

(** Return extracted data as a dictionary. *)
Definition get_extracted_data (self : t) : ExtractedData :=
  mkExtracted (title self) (links self) (meta self).

(** How the base class drives the handlers on one event: a start tag is
    remembered before [handle_starttag] runs; [handle_endtag] and the
    other handlers are the base class's empty ones. *)
Definition dispatch (self : t) (ev : MarkupEvent) : t :=
  match ev with
  | StartTag text tag attrs =>
      handle_starttag (mk (Some text) (title self) (links self) (meta self)) tag attrs
  | Data text => handle_data self text
  | EndTag _ | Ignored => self
  end.

Definition dispatch_all (self : t) (evs : list MarkupEvent) : t :=
  fold_left dispatch evs self.

Section Feed.

(** The scanner of [html.parser]: the events it reports for a text, and
    the exception it raises on the way, if any. *)
Variable goahead : Scanner.

(** [feed(data)] starts with [self.rawdata = self.rawdata + data], which
    raises [TypeError] when [data] is a bytes object.  On a text the
    handlers run on the events of the scan; an exception of the scanner
    leaves [feed] after the events before it were handled. *)
Definition feed (self : t) (data : PyText) : Result t :=
  match data with
  | PyStr s =>
      match goahead s with
      | (evs, None) => Ok (dispatch_all self evs)
      | (_, Some e) => Raise e
      end
  | PyBytes _ => Raise concat_bytes_error
  end.

End Feed.

End HTMLParser.

(** ** DataExtractor *)
Module DataExtractor.

Section Extract.
Variable goahead : Scanner.

(** Extract data from HTML using rules; [rules] is not consulted. *)
Definition extract (html : PyText) (rules : gmap string string) : Result ExtractedData :=
  let parser := HTMLParser.__init__ in
  match HTMLParser.feed goahead parser html with
  | Ok parser => Ok (HTMLParser.get_extracted_data parser)
  | Raise e => Raise e
  end.

End Extract.

End DataExtractor.

(** ** Files and the csv writer *)

(** [open(path, 'w')]: creates or truncates the file. *)
Definition open_w (path : string) : M unit := fun w =>
  match open_error w path with
  | Some e => (Raise e, w)
  | None =>
      (Ok tt,
       mkWorld (now w) (served w) (network w) (<[path := ""]> (fs w)) (open_error w)
               (trace w ++ [EvOpen path]))
  end.

(** [f.write(text)] on the file opened at [path]. *)
Definition file_write (path text : string) : M unit := fun w =>
  (Ok tt,
   mkWorld (now w) (served w) (network w)
           (<[path := default "" (fs w !! path) ++ text]> (fs w)) (open_error w)
           (trace w ++ [EvWrite path text])).

(** Lift a pure result into a computation. *)
Definition lift {A} (r : Result A) : M A := fun w => (r, w).

(** A value placed in a csv row. *)
Inductive Cell :=
| CellNone
| CellInt (n : Z)
| CellStr (s : string).

Definition comma : ascii := ","%char.
Definition quotechar : ascii := "034"%char.
Definition CR : ascii := "013"%char.
Definition LF : ascii := "010"%char.
Definition lineterminator : string := String CR (String LF EmptyString).

(** The text the writer takes for a cell: nothing for [None], [str(v)]
    for a number. *)
Definition cell_text (c : Cell) : string :=
  match c with
  | CellNone => ""
  | CellInt n => str_of_int n
  | CellStr s => s
  end.

Definition csv_special (c : ascii) : bool :=
  bool_decide (c = comma) || bool_decide (c = quotechar)
  || bool_decide (c = CR) || bool_decide (c = LF).

Fixpoint csv_double_quotes (s : string) : string :=
  match s with
  | EmptyString => EmptyString
  | String c r =>
      if bool_decide (c = quotechar)
      then String c (String c (csv_double_quotes r))
      else String c (csv_double_quotes r)
  end.

(** One field in the excel dialect with minimal quoting. *)
Definition csv_field (c : Cell) : string :=
  let s := cell_text c in
  if existsb csv_special (list_ascii_of_string s)
  then String quotechar (csv_double_quotes s ++ String quotechar EmptyString)
  else s.

(** [csv.writer(f).writerow(row)]: the line written for a row; a row
    holding one empty field is written as a pair of quotes. *)
Definition csv_writerow (row : list Cell) : string :=
  match row with
  | [c] =>
      if decide (cell_text c = "")
      then String quotechar (String quotechar lineterminator)
      else csv_field c ++ lineterminator
  | _ => String.concat "," (map csv_field row) ++ lineterminator
  end.

(** The json encoder as [json.dump] drives it: the chunks of text it
    yields for the outcomes, each written to the file in turn. *)
Abbreviation Encoder := (list ScrapingResult -> list string).

(** ** ResultHandler *)
Module ResultHandler.

(** Truth value of [result['data']]: a record dictionary always holds
    its three keys, so only [None] is false. *)
Definition truthy_data (d : option ExtractedData) : bool :=
  match d with
  | Some _ => true
  | None => false
  end.

(** Truth value of [result['error']]: [None] and the empty string are
    false. *)
Definition truthy_str (s : option string) : bool :=
  match s with
  | Some s => negb (String.eqb s "")
  | None => false
  end.

Definition header : list Cell :=
  [CellStr "URL"; CellStr "Status"; CellStr "Title"; CellStr "Links"; CellStr "Error"].

(** The [row = [...]] list of the csv branch, evaluated left to right. *)
Definition csv_row (result : ScrapingResult) : Result (list Cell) :=
  let c_url := CellStr (url result) in
  let c_status := match status result with Some n => CellInt n | None => CellNone end in
  let c_title :=
    match data result with
    | Some d => if truthy_data (data result) then CellStr (title d) else CellStr ""
    | None => CellStr ""
    end in
  match (match data result with
         | Some d => if truthy_data (data result) then join ", " (links d) else Ok ""
         | None => Ok ""
         end) with
  | Raise e => Raise e
  | Ok joined =>
      let c_error :=
        match error result with
        | Some e => if truthy_str (error result) then CellStr e else CellStr ""
        | None => CellStr ""
        end in
      Ok [c_url; c_status; c_title; CellStr joined; c_error]
  end.

(** The [for result in results] loop of the csv branch. *)
Fixpoint write_rows (path : string) (results : list ScrapingResult) : M unit :=
  match results with
  | [] => ret tt
  | result :: rest =>
      do row <- lift (csv_row result);
      run file_write path (csv_writerow row);
      write_rows path rest
  end.

(** [for chunk in iterable: fp.write(chunk)], the loop of [json.dump]. *)
Fixpoint write_chunks (path : string) (chunks : list string) : M unit :=
  match chunks with
  | [] => ret tt
  | chunk :: rest =>
      run file_write path chunk;
      write_chunks path rest
  end.

Section Save.

(** [json.dump(results, f, indent=2)]: the chunks the encoder yields. *)
Variable json_chunks : Encoder.

(** Save results to file in specified format. *)
Definition save_results (results : list ScrapingResult) (cfg : ScraperConfig) : M unit :=
  if decide (output_format cfg = "json") then
    run open_w (output_path cfg);
    write_chunks (output_path cfg) (json_chunks results)
  else if decide (output_format cfg = "csv") then
    run open_w (output_path cfg);
    run file_write (output_path cfg) (csv_writerow header);
    write_rows (output_path cfg) results
  else
    raise (mkExc ValueError ("Unsupported output format: " ++ output_format cfg)).

End Save.

End ResultHandler.

(** ** Top-level functions *)

Section Pipeline.

Variable Request_error : string -> option Exc.
Variable goahead : Scanner.
Variable json_chunks : Encoder.

(** The [except Exception as e] handler of [scrape_url]. *)
Definition scrape_failed (result : ScrapingResult) (e : Exc) : M ScrapingResult :=
  let result := mkResult (url result) (status result) (data result) (Some (exc_str e)) in
  run Logger.log_error ("Failed to scrape " ++ url result ++ ": " ++ exc_str e);
  ret result.

(** Fetch and parse a single URL. *)
Definition scrape_url (target : string) (cfg : ScraperConfig) : M ScrapingResult := fun w =>
  let result := mkResult target None None None in
  let client := HTTPClient.__init__ cfg in
  match HTTPClient.fetch Request_error client target w with
  | (Raise e, w1) => scrape_failed result e w1
  | (Ok html, w1) =>
      let result := mkResult (url result) (Some 200) (data result) (error result) in
      match DataExtractor.extract goahead (PyBytes html) ∅ with
      | Raise e => scrape_failed result e w1
      | Ok extracted =>
          (Ok (mkResult (url result) (status result) (Some extracted) (error result)), w1)
      end
  end.

Definition extract_data (html : PyText) (rules : gmap string string) : Result ExtractedData :=
  DataExtractor.extract goahead html rules.

Definition save_results (results : list ScrapingResult) (cfg : ScraperConfig) : M unit :=
  ResultHandler.save_results json_chunks results cfg.

(** The [for url in urls] loop of [main], with the results collected so far. *)
Fixpoint main_loop (urls : list string) (cfg : ScraperConfig)
    (results : list ScrapingResult) : M (list ScrapingResult) :=
  match urls with
  | [] => ret results
  | target :: rest =>
      do result <- scrape_url target cfg;
      let results := (results ++ [result])%list in
      run Logger.log_info
            ("Scraped " ++ target ++ ": "
             ++ (if negb (ResultHandler.truthy_str (error result)) then "Success" else "Failed"));
      main_loop rest cfg results
  end.

Definition main_config : ScraperConfig :=
  mkConfig "MyScraper/1.0" 1 3 10 "json" "results.json".

Definition main_urls : list string := ["https://example.com"; "https://example.org"].

Definition main : M unit :=
  run Logger.setup_logging;
  do results <- main_loop main_urls main_config [];
  run save_results results main_config;
  Logger.log_info ("Saved results to " ++ output_path main_config).

End Pipeline.

(** ** Vocabulary of the properties *)

Definition is_urlopen (ev : Event) : bool :=
  match ev with
  | EvUrlopen _ _ _ _ => true
  | _ => false
  end.

(** Number of network attempts recorded in a stretch of the trace. *)
Definition urlopen_count (evs : list Event) : nat :=
  List.length (List.filter is_urlopen evs).

(** The network fails attempts [served w .. served w + n - 1] on [target]
    with retriable errors, [errs j] on the j-th of them. *)
Definition fails_retriably (w : World) (target : string) (n : nat) (errs : nat -> Exc) : Prop :=
  forall j, (j < n)%nat ->
    outcome (network w target (served w + j)%nat) = Raise (errs j)
    /\ HTTPClient.is_url_error (errs j) = true.

(** The exception [fetch] raises when the last allowed attempt failed. *)
Definition retries_exhausted (k : Z) (cause : Exc) : Exc :=
  mkExc PlainException ("Failed after " ++ str_of_int k ++ " attempts: " ++ exc_str cause).

(** How the loop turns the answer to an attempt it does not retry into
    the result of [fetch]. *)
Definition final_result (k : Z) (o : Result (list byte)) : Result (list byte) :=
  match o with
  | Ok body => Ok body
  | Raise e => if HTTPClient.is_url_error e then Raise (retries_exhausted k e) else Raise e
  end.

(** The texts that reach the title: those reported while the source
    text of the most recently opened start tag, [last_start], is exactly
    [<title>].  An end tag does not change which start tag was opened
    last. *)
Fixpoint title_texts (last_start : option string) (evs : list MarkupEvent) : list string :=
  match evs with
  | [] => []
  | StartTag text _ _ :: rest => title_texts (Some text) rest
  | Data text :: rest =>
      if decide (last_start = Some "<title>")
      then text :: title_texts last_start rest
      else title_texts last_start rest
  | _ :: rest => title_texts last_start rest
  end.

(** Whether an event is the opening of a [<title>] tag. *)
Definition opens_title (ev : MarkupEvent) : bool :=
  match ev with
  | StartTag text _ _ => bool_decide (text = "<title>")
  | _ => false
  end.

(** Whether a text reported after the events [pre] immediately follows
    the opening of a [<title>] tag. *)
Definition follows_title_open (pre : list MarkupEvent) : bool :=
  match rev pre with
  | ev :: _ => opens_title ev
  | [] => false
  end.

(** The title policy as the specification words it: a text that does
    not immediately follow the opening of a [<title>] tag does not
    change the title. *)
Definition later_text_is_ignored : Prop :=
  forall (pre : list MarkupEvent) (text : string),
    follows_title_open pre = false ->
    HTMLParser.title (HTMLParser.dispatch_all HTMLParser.__init__ (pre ++ [Data text]))
    = HTMLParser.title (HTMLParser.dispatch_all HTMLParser.__init__ pre).

(** The link values of a record that are strings. *)
Definition link_strings (d : ExtractedData) : list string :=
  flat_map (fun v => match v with Some s => [s] | None => [] end) (links d).

(** Every link of the outcome's record, if it has one, is a string, as
    [ExtractedData] declares. *)
Definition links_are_strings (o : ScrapingResult) : bool :=
  match data o with
  | Some d => forallb (fun v => match v with Some _ => true | None => false end) (links d)
  | None => true
  end.

(** The csv row of an outcome in the words of the specification: URL;
    status; title, empty when there is no record; links joined with a
    comma and a space, empty when there is no record; error message,
    empty when there is none. *)
Definition spec_csv_row (o : ScrapingResult) : list Cell :=
  [ CellStr (url o);
    match status o with Some n => CellInt n | None => CellNone end;
    CellStr (match data o with Some d => title d | None => "" end);
    CellStr (match data o with Some d => String.concat ", " (link_strings d) | None => "" end);
    CellStr (match error o with Some msg => msg | None => "" end) ].

(** The text of the csv file in the words of the specification: the
    header line, then one line per outcome, in order. *)
Definition spec_csv_text (outcomes : list ScrapingResult) : string :=
  ("URL,Status,Title,Links,Error" ++ lineterminator)
  ++ fold_right String.append "" (map (fun o => csv_writerow (spec_csv_row o)) outcomes).

(** The text a file holds after the chunks of [json.dump] were written
    to it one after the other. *)
Definition chunks_text (chunks : list string) : string :=
  fold_right String.append "" chunks.

(** The [href] values an event contributes: those of an [a] start tag,
    in the order of its attributes. *)
Definition hrefs_of (ev : MarkupEvent) : list AttrValue :=
  match ev with
  | StartTag _ tag attrs =>
      if decide (tag = "a")
      then map snd (List.filter (fun p => bool_decide (fst p = "href")) attrs)
      else []
  | _ => []
  end.

(** The name and content a [meta] start tag records, when it carries
    both attributes. *)
Definition meta_binding (ev : MarkupEvent) : option (AttrValue * AttrValue) :=
  match ev with
  | StartTag _ tag attrs =>
      if decide (tag = "meta") then
        match HTMLParser.dict attrs !! "name", HTMLParser.dict attrs !! "content" with
        | Some name, Some content => Some (name, content)
        | _, _ => None
        end
      else None
  | _ => None
  end.

(** Whether an event records a content for the meta name [n]. *)
Definition binds_name (n : AttrValue) (ev : MarkupEvent) : bool :=
  match meta_binding ev with
  | Some (name, _) => bool_decide (name = n)
  | None => false
  end.

(** ** Sample environments *)

(** A world at clock [t] with nothing served yet, an empty file system
    whose files can all be opened, and the given network. *)
Definition world_at (t : Q) (net : string -> nat -> Response) : World :=
  mkWorld t 0 net ∅ (fun _ => None) [].

Definition no_request_error : string -> option Exc := fun _ => None.

Definition timed_out : Exc := mkExc URLError "<urlopen error timed out>".

Definition page : list byte := [x3c; x70; x3e; x48; x69].

(** Every call fails with a retriable error. *)
Definition net_down : string -> nat -> Response :=
  fun _ _ => mkResponse (1 # 2) (Raise timed_out).

(** The first call fails with a retriable error, later ones succeed. *)
Definition net_flaky : string -> nat -> Response :=
  fun _ n => match n with
             | O => mkResponse (1 # 2) (Raise timed_out)
             | S _ => mkResponse (1 # 4) (Ok page)
             end.

(** Every call succeeds at once. *)
Definition net_up : string -> nat -> Response :=
  fun _ _ => mkResponse 0 (Ok page).

(** The first call fails with a retriable error, the second with a
    timeout raised while the body is read, which is not a [URLError]. *)
Definition read_timed_out : Exc := mkExc TimeoutError "The read operation timed out".

Definition net_stalls : string -> nat -> Response :=
  fun _ n => match n with
             | O => mkResponse (1 # 2) (Raise timed_out)
             | S _ => mkResponse 10 (Raise read_timed_out)
             end.

Definition three_tries : ScraperConfig :=
  mkConfig "MyScraper/1.0" 1 3 10 "json" "results.json".

Definition two_tries : ScraperConfig :=
  mkConfig "MyScraper/1.0" 1 2 10 "csv" "results.csv".

(** The events of
    [<title>Hi</title> Home <a href>x</a>]: a title, text after its
    closing tag, and a link whose [href] has no value. *)
Definition title_then_text : list MarkupEvent :=
  [ StartTag "<title>" "title" []; Data "Hi"; EndTag "title"; Data " Home ";
    StartTag "<a href>" "a" [("href", None)]; Data "x"; EndTag "a" ].

(** The events of [<title>Hi</title>], a line break, [<p>x</p>]. *)
Definition title_then_newline : list MarkupEvent :=
  [ StartTag "<title>" "title" []; Data "Hi"; EndTag "title"; Data (String LF EmptyString);
    StartTag "<p>" "p" []; Data "x"; EndTag "p" ].

Definition quoted (s : string) : string := dquote ++ s ++ dquote.

(** The events of the document
    [<html><head><title>Hi</title><meta name=x content=y></head>
     <body><a href=/a>A</a><a href=/b>B</a></body></html>]
    with its attribute values in double quotes. *)
Definition sample_document : list MarkupEvent :=
  [ StartTag "<html>" "html" []; StartTag "<head>" "head" [];
    StartTag "<title>" "title" []; Data "Hi"; EndTag "title";
    StartTag ("<meta name=" ++ quoted "x" ++ " content=" ++ quoted "y" ++ ">") "meta"
      [("name", Some "x"); ("content", Some "y")];
    EndTag "head"; StartTag "<body>" "body" [];
    StartTag ("<a href=" ++ quoted "/a" ++ ">") "a" [("href", Some "/a")]; Data "A"; EndTag "a";
    StartTag ("<a href=" ++ quoted "/b" ++ ">") "a" [("href", Some "/b")]; Data "B"; EndTag "a";
    EndTag "body"; EndTag "html" ].

(** The three documents above as texts. *)
Definition doc_title_then_text : string := "<title>Hi</title> Home <a href>x</a>".

Definition doc_title_then_newline : string :=
  "<title>Hi</title>" ++ String LF "<p>x</p>".

Definition doc_sample : string :=
  "<html><head><title>Hi</title><meta name=" ++ quoted "x" ++ " content=" ++ quoted "y"
  ++ "></head><body><a href=" ++ quoted "/a" ++ ">A</a><a href=" ++ quoted "/b"
  ++ ">B</a></body></html>".

(** A scanner that knows these documents: the events the standard
    parser reports for each of them, and none for any other text. *)
Definition sample_scan : Scanner := fun document =>
  if String.eqb document doc_title_then_text then (title_then_text, None)
  else if String.eqb document doc_title_then_newline then (title_then_newline, None)
  else if String.eqb document doc_sample then (sample_document, None)
  else ([], None).

Definition fetched_ok : ScrapingResult :=
  mkResult "https://good.example" (Some 200)
    (Some (mkExtracted "Hi" [Some "/a"; Some "/b"] {[ Some "x" := Some "y" ]})) None.

Definition fetch_failed : ScrapingResult :=
  mkResult "https://bad.example" None None
    (Some "Failed after 2 attempts: <urlopen error timed out>").

(** An outcome holding the record of [title_then_text]. *)
Definition valueless_href : ScrapingResult :=
  mkResult "https://odd.example" (Some 200)
    (Some (HTMLParser.get_extracted_data
             (HTMLParser.dispatch_all HTMLParser.__init__ title_then_text))) None.

Definition no_json : Encoder := fun _ => ["["; "]"].

Definition csv_output : ScraperConfig :=
  mkConfig "MyScraper/1.0" 1 3 10 "csv" "results.csv".

Definition xml_output : ScraperConfig :=
  mkConfig "MyScraper/1.0" 1 3 10 "xml" "results.xml".

(** The events of [<TITLE>Hi</TITLE>] and of a title tag written with
    an attribute. *)
Definition upper_case_title : list MarkupEvent :=
  [ StartTag "<TITLE>" "title" []; Data "Hi"; EndTag "title" ].

Definition title_with_attribute : list MarkupEvent :=
  [ StartTag "<title lang=en>" "title" [("lang", Some "en")]; Data "Hi"; EndTag "title" ].

(** The events of two [meta] tags with the same name, then one without
    content. *)
Definition repeated_meta : list MarkupEvent :=
  [ StartTag "<meta name=k content=1>" "meta" [("name", Some "k"); ("content", Some "1")];
    StartTag "<meta name=k content=2>" "meta" [("name", Some "k"); ("content", Some "2")];
    StartTag "<meta name=z>" "meta" [("name", Some "z")] ].

(** The exception of the standard parser on the marked section
    [<![x]>]. *)
Definition marked_section_error : Exc :=
  mkExc (OtherException "AssertionError") "unknown status keyword 'x' in marked section".

(** A scanner that knows these edge documents: what the standard parser
    reports for each of them, the last one ending in an exception, and
    no event for any other text. *)
Definition edge_scan : Scanner := fun document =>
  if String.eqb document "<TITLE>Hi</TITLE>" then (upper_case_title, None)
  else if String.eqb document "<title lang=en>Hi</title>" then (title_with_attribute, None)
  else if String.eqb document "<meta name=k content=1><meta name=k content=2><meta name=z>"
  then (repeated_meta, None)
  else if String.eqb document "<TITLE>Hi</TITLE><![x]>"
  then (upper_case_title, Some marked_section_error)
  else ([], None).

Definition no_tries : ScraperConfig :=
  mkConfig "MyScraper/1.0" 1 0 10 "json" "results.json".

Definition one_try : ScraperConfig :=
  mkConfig "MyScraper/1.0" 1 1 10 "json" "results.json".

(** * Properties *)

(** ** The clock comparison *)

Lemma Qltb_lt (a b : Q) : Qltb a b = true <-> (a < b)%Q.
Proof. unfold Qltb, Qlt. apply Z.ltb_lt. Qed.

Lemma Qltb_ge (a b : Q) : Qltb a b = false <-> (b <= a)%Q.
Proof. unfold Qltb, Qle. rewrite Z.ltb_ge. reflexivity. Qed.

(** ** The pacing gate *)

(** One call of the gate, spelled out by cases. *)
Lemma enforce_delay_cases (self : HTTPClient.t) (w : World) :
  let d := delay (HTTPClient.config self) in
  let elapsed := (now w - HTTPClient.last_request_time self)%Q in
  ((elapsed < d)%Q /\
   HTTPClient._enforce_delay self w =
     (Ok (HTTPClient.mk (HTTPClient.config self) (now w + (d - elapsed))%Q),
      mkWorld (now w + (d - elapsed))%Q (served w) (network w) (fs w) (open_error w)
              (trace w ++ [EvSleep (d - elapsed)%Q])))
  \/
  ((d <= elapsed)%Q /\
   HTTPClient._enforce_delay self w = (Ok (HTTPClient.mk (HTTPClient.config self) (now w)), w)).
Proof.
  intros d elapsed.
  unfold HTTPClient._enforce_delay, bind, time_time, time_sleep, ret.
  fold elapsed. fold d.
  destruct (Qltb elapsed d) eqn:E.
  - left. apply Qltb_lt in E. split; [exact E | reflexivity].
  - right. apply Qltb_ge in E. split; [exact E | reflexivity].
Qed.

(** The gate never raises; it leaves the network, its counter and the
    files alone and adds sleeps only. *)
Lemma enforce_delay_frame (self : HTTPClient.t) (w : World) :
  exists t1 w' evs,
    HTTPClient._enforce_delay self w = (Ok (HTTPClient.mk (HTTPClient.config self) t1), w')
    /\ served w' = served w /\ network w' = network w
    /\ fs w' = fs w /\ open_error w' = open_error w
    /\ trace w' = (trace w ++ evs)%list /\ urlopen_count evs = 0%nat.
Proof.
  destruct (enforce_delay_cases self w) as [[_ H] | [_ H]]; rewrite H.
  - eexists _, _, [_]. repeat split; reflexivity.
  - exists (now w), w, []. rewrite app_nil_r. repeat split; reflexivity.
Qed.

(** C8.  Two consecutive calls of the gate on one client, the second in
    any later world: the second recorded dispatch time is at least
    [delay] after the first.  When less than [delay] has elapsed since
    the first record, the second call sleeps exactly the remaining
    difference before it records; when [delay] or more has elapsed it
    does not sleep and changes nothing in the world. *)
Theorem enforce_delay_spacing (self : HTTPClient.t) (w1 w2 : World) :
  let d := delay (HTTPClient.config self) in
  exists c1 w1' c2 w2',
    HTTPClient._enforce_delay self w1 = (Ok c1, w1')
    /\ HTTPClient.last_request_time c1 = now w1'
    /\ HTTPClient._enforce_delay c1 w2 = (Ok c2, w2')
    /\ HTTPClient.last_request_time c2 = now w2'
    /\ (d <= HTTPClient.last_request_time c2 - HTTPClient.last_request_time c1)%Q
    /\ ((now w2 - HTTPClient.last_request_time c1 < d)%Q ->
        trace w2' = (trace w2 ++ [EvSleep (d - (now w2 - HTTPClient.last_request_time c1))%Q])%list
        /\ (now w2' == HTTPClient.last_request_time c1 + d)%Q)
    /\ ((d <= now w2 - HTTPClient.last_request_time c1)%Q ->
        w2' = w2).
Proof.
  intros d.
  assert (Hfirst : exists c1 w1',
             HTTPClient._enforce_delay self w1 = (Ok c1, w1')
             /\ HTTPClient.last_request_time c1 = now w1'
             /\ HTTPClient.config c1 = HTTPClient.config self).
  { destruct (enforce_delay_cases self w1) as [[_ H] | [_ H]]; rewrite H;
      eexists _, _; repeat split; reflexivity. }
  destruct Hfirst as (c1 & w1' & H1 & Hl1 & Hcfg).
  exists c1, w1'.
  destruct (enforce_delay_cases c1 w2) as [[Hlt H2] | [Hge H2]];
    rewrite Hcfg in Hlt || rewrite Hcfg in Hge; rewrite Hcfg in H2; fold d in H2.
  - fold d in Hlt. eexists _, _. split; [exact H1 |]. split; [exact Hl1 |].
    split; [exact H2 |]. cbn [HTTPClient.last_request_time now trace].
    split; [reflexivity |]. split; [lra |]. split.
    + intros _. split; [reflexivity | lra].
    + intros Hge. lra.
  - fold d in Hge. eexists _, _. split; [exact H1 |]. split; [exact Hl1 |].
    split; [exact H2 |]. cbn [HTTPClient.last_request_time].
    split; [reflexivity |]. split; [lra |]. split.
    + intros Hlt. lra.
    + intros _. reflexivity.
Qed.

(** ** The retry loop *)

Lemma urlopen_count_app (a b : list Event) :
  urlopen_count (a ++ b) = (urlopen_count a + urlopen_count b)%nat.
Proof. unfold urlopen_count. rewrite List.filter_app, length_app. reflexivity. Qed.

(** What one iteration does before it looks at the answer: the gate,
    then the call. *)
Lemma fetch_loop_unfold (self : HTTPClient.t) (target : string) (rest : nat)
    (attempt : Z) (w : World) :
  exists t1 w1 evs,
    let cfg := HTTPClient.config self in
    let w2 := mkWorld (now w1 + latency (network w target (served w)))%Q (S (served w))
                      (network w) (fs w) (open_error w)
                      (trace w ++ evs ++ [EvUrlopen target (user_agent cfg) (timeout cfg) (now w1)]) in
    urlopen_count evs = 0%nat /\
    HTTPClient.fetch_loop self target (S rest) attempt w =
      match outcome (network w target (served w)) with
      | Ok body => (Ok body, w2)
      | Raise e =>
          if HTTPClient.is_url_error e then
            if (attempt =? max_retries cfg - 1)%Z then
              (Raise (retries_exhausted (max_retries cfg) e), w2)
            else
              HTTPClient.fetch_loop (HTTPClient.mk cfg t1) target rest (attempt + 1)
                (mkWorld (now w2 + inject_Z (2 ^ attempt))%Q (served w2) (network w2) (fs w2)
                         (open_error w2) (trace w2 ++ [EvSleep (inject_Z (2 ^ attempt))]))
          else (Raise e, w2)
      end.
Proof.
  destruct (enforce_delay_frame self w) as (t1 & w1 & evs & He & Hs & Hn & Hf & Ho & Ht & Hc).
  exists t1, w1, evs. cbn zeta. split; [exact Hc |].
  cbn [HTTPClient.fetch_loop]. unfold bind at 1. rewrite He.
  unfold urlopen. rewrite Hs, Hn, Hf, Ho, Ht. rewrite <- app_assoc.
  cbn [HTTPClient.config].
  destruct (outcome (network w target (served w))) as [body | e]; [reflexivity |].
  destruct (HTTPClient.is_url_error e); [| reflexivity].
  destruct (attempt =? max_retries (HTTPClient.config self) - 1)%Z; reflexivity.
Qed.

(** The loop walks through attempts that fail with retriable errors:
    after [m] of them, with more iterations left, it stands at iteration
    [attempt + m] having made exactly [m] calls. *)
Lemma fetch_loop_skip (m : nat) :
  forall (self : HTTPClient.t) (target : string) (rest : nat) (attempt : Z)
         (w : World) (errs : nat -> Exc),
    fails_retriably w target m errs ->
    (attempt + Z.of_nat m < max_retries (HTTPClient.config self))%Z ->
    exists self' w' evs,
      HTTPClient.fetch_loop self target (m + rest) attempt w =
        HTTPClient.fetch_loop self' target rest (attempt + Z.of_nat m) w'
      /\ HTTPClient.config self' = HTTPClient.config self
      /\ served w' = (served w + m)%nat /\ network w' = network w
      /\ fs w' = fs w
      /\ trace w' = (trace w ++ evs)%list /\ urlopen_count evs = m.
Proof.
  induction m as [| m IH]; intros self target rest attempt w errs Hfail Hlt.
  - exists self, w, []. rewrite Z.add_0_r, Nat.add_0_r, app_nil_r.
    repeat split; reflexivity.
  - destruct (fetch_loop_unfold self target (m + rest) attempt w)
      as (t1 & w1 & evs & Hc & Hstep).
    cbn zeta in Hstep. cbn [Nat.add]. rewrite Hstep. clear Hstep.
    destruct (Hfail 0%nat) as [Hout Hurl]; [lia |].
    rewrite Nat.add_0_r in Hout. rewrite Hout, Hurl.
    replace (attempt =? max_retries (HTTPClient.config self) - 1)%Z with false
      by (symmetry; apply Z.eqb_neq; lia).
    match goal with
    | |- context [HTTPClient.fetch_loop ?s target (m + rest) (attempt + 1) ?w2] =>
        destruct (IH s target rest (attempt + 1)%Z w2 (fun j => errs (S j)))
          as (self' & w' & evs' & Hrun & Hcfg & Hs & Hn & Hf & Ht & Hc')
    end.
    + intros j Hj. cbn [served network]. destruct (Hfail (S j)) as [H1 H2]; [lia |].
      replace (S (served w) + j)%nat with (served w + S j)%nat by lia. split; assumption.
    + cbn [HTTPClient.config]. lia.
    + exists self', w'. eexists. rewrite Hrun.
      replace (attempt + 1 + Z.of_nat m)%Z with (attempt + Z.of_nat (S m))%Z by lia.
      split; [reflexivity |]. split; [exact Hcfg |].
      split; [rewrite Hs; cbn [served]; lia |]. split; [exact Hn |]. split; [exact Hf |].
      split.
      * rewrite Ht. cbn [trace]. rewrite <- !app_assoc. reflexivity.
      * rewrite !urlopen_count_app, Hc, Hc'. cbn. lia.
Qed.

(** The attempt that ends the loop.  After [m] retriable failures the
    next answer ends the loop when it is a success, an exception the
    loop does not catch, or a retriable failure of the last allowed
    attempt; the call is then the last effect of the loop. *)
Lemma fetch_loop_final (m : nat) (self : HTTPClient.t) (target : string) (rest : nat)
    (w : World) (errs : nat -> Exc) :
  let cfg := HTTPClient.config self in
  let answer := outcome (network w target (served w + m)%nat) in
  fails_retriably w target m errs ->
  (Z.of_nat m < max_retries cfg)%Z ->
  (forall e, answer = Raise e -> HTTPClient.is_url_error e = true ->
             Z.of_nat m = max_retries cfg - 1) ->
  exists w' evs t,
    HTTPClient.fetch_loop self target (m + S rest) 0 w
      = (final_result (max_retries cfg) answer, w')
    /\ trace w' = (trace w ++ evs ++ [EvUrlopen target (user_agent cfg) (timeout cfg) t])%list
    /\ urlopen_count evs = m /\ served w' = (served w + S m)%nat
    /\ network w' = network w /\ fs w' = fs w.
Proof.
  intros cfg answer Hfail Hlt Hlast.
  destruct (fetch_loop_skip m self target (S rest) 0 w errs Hfail)
    as (self' & w1 & evs & Hrun & Hcfg & Hs & Hn & Hf & Ht & Hc);
    [unfold cfg in Hlt; lia |].
  rewrite Hrun. clear Hrun.
  destruct (fetch_loop_unfold self' target rest (0 + Z.of_nat m) w1)
    as (t1 & w2 & evs' & Hc' & Hstep).
  cbn zeta in Hstep. rewrite Hstep. clear Hstep.
  rewrite Hcfg, Hs, Hn, Hf, Ht. fold cfg. fold answer.
  eexists _, (evs ++ evs')%list, (now w2).
  split.
  - destruct answer as [body | e] eqn:Ha; [reflexivity |].
    cbn [final_result]. destruct (HTTPClient.is_url_error e) eqn:He; [| reflexivity].
    rewrite (proj2 (Z.eqb_eq _ _)); [reflexivity |].
    rewrite <- (Hlast e eq_refl He). lia.
  - cbn [trace served network fs]. rewrite <- !app_assoc.
    repeat split; try reflexivity; try lia.
    rewrite urlopen_count_app, Hc, Hc'. lia.
Qed.

(** [fetch] once the request object is built. *)
Lemma fetch_built (Request_error : string -> option Exc) (self : HTTPClient.t)
    (target : string) (w : World) :
  Request_error target = None ->
  HTTPClient.fetch Request_error self target w =
    HTTPClient.fetch_loop self target (Z.to_nat (max_retries (HTTPClient.config self))) 0 w.
Proof. intros H. unfold HTTPClient.fetch. rewrite H. reflexivity. Qed.

(** C2.  With [max_retries = k >= 1] and a request that can be built: if
    the network fails every one of the [k] attempts with a retriable
    error, [fetch] makes exactly [k] calls and raises the exception
    whose text names [k] attempts and the text of the last failure; if
    the attempts before the [i]-th fail that way and the [i]-th, with
    [i <= k], succeeds, [fetch] makes exactly [i] calls and returns the
    bytes read on the [i]-th. *)
Theorem fetch_retry_contract (Request_error : string -> option Exc) (self : HTTPClient.t)
    (target : string) (w : World) :
  let k := max_retries (HTTPClient.config self) in
  (1 <= k)%Z ->
  Request_error target = None ->
  (forall errs, fails_retriably w target (Z.to_nat k) errs ->
     exists w' evs,
       HTTPClient.fetch Request_error self target w
         = (Raise (retries_exhausted k (errs (Z.to_nat k - 1)%nat)), w')
       /\ trace w' = (trace w ++ evs)%list
       /\ urlopen_count evs = Z.to_nat k
       /\ served w' = (served w + Z.to_nat k)%nat)
  /\
  (forall (i : nat) errs body,
     (1 <= i <= Z.to_nat k)%nat ->
     fails_retriably w target (i - 1) errs ->
     outcome (network w target (served w + (i - 1))%nat) = Ok body ->
     exists w' evs,
       HTTPClient.fetch Request_error self target w = (Ok body, w')
       /\ trace w' = (trace w ++ evs)%list
       /\ urlopen_count evs = i
       /\ served w' = (served w + i)%nat).
Proof.
  intros k Hk Hreq. split.
  - intros errs Hfail.
    assert (Hfail' : fails_retriably w target (Z.to_nat k - 1) errs).
    { intros j Hj. apply Hfail. lia. }
    destruct (Hfail (Z.to_nat k - 1)%nat) as [Hout Hurl]; [lia |].
    destruct (fetch_loop_final (Z.to_nat k - 1) self target 0 w errs Hfail')
      as (w' & evs & t & Hrun & Ht & Hc & Hs & _); [fold k; lia | fold k; lia |].
    exists w'. eexists. split; [| split; [exact Ht | split]].
    + rewrite (fetch_built _ _ _ _ Hreq). fold k.
      replace (Z.to_nat k) with (Z.to_nat k - 1 + 1)%nat at 1 by lia.
      rewrite Hrun, Hout. cbn [final_result]. rewrite Hurl. reflexivity.
    + rewrite urlopen_count_app, Hc. cbn. lia.
    + rewrite Hs. lia.
  - intros i errs body Hi Hfail Hout.
    destruct (fetch_loop_final (i - 1) self target (Z.to_nat k - i) w errs Hfail)
      as (w' & evs & t & Hrun & Ht & Hc & Hs & _).
    + fold k. lia.
    + intros e He. rewrite Hout in He. discriminate He.
    + exists w'. eexists. split; [| split; [exact Ht | split]].
      * rewrite (fetch_built _ _ _ _ Hreq). fold k.
        replace (Z.to_nat k) with (i - 1 + S (Z.to_nat k - i))%nat at 1 by lia.
        rewrite Hrun, Hout. reflexivity.
      * rewrite urlopen_count_app, Hc. cbn. lia.
      * rewrite Hs. lia.
Qed.

Lemma fetch_retry_contract_witness :
  let self := HTTPClient.__init__ two_tries in
  (exists w',
     HTTPClient.fetch no_request_error self "https://bad.example" (world_at 100 net_down)
       = (Raise (retries_exhausted 2 timed_out), w')
     /\ served w' = 2%nat)
  /\
  (exists w',
     HTTPClient.fetch no_request_error self "https://good.example" (world_at 100 net_flaky)
       = (Ok page, w')
     /\ served w' = 2%nat).
Proof.
  intros self. split.
  - destruct (fetch_retry_contract no_request_error self "https://bad.example"
                (world_at 100 net_down)) as [Hall _].
    + cbn. lia.
    + reflexivity.
    + destruct (Hall (fun _ => timed_out)) as (w' & evs & Hrun & _ & _ & Hs).
      * intros j _. split; reflexivity.
      * exists w'. split; [exact Hrun | exact Hs].
  - destruct (fetch_retry_contract no_request_error self "https://good.example"
                (world_at 100 net_flaky)) as [_ Hfirst].
    + cbn. lia.
    + reflexivity.
    + destruct (Hfirst 2%nat (fun _ => timed_out) page) as (w' & evs & Hrun & _ & _ & Hs).
      * cbn. lia.
      * intros j Hj. cbn in Hj. assert (j = 0%nat) as -> by lia. split; reflexivity.
      * reflexivity.
      * exists w'. split; [exact Hrun | exact Hs].
Defined.

(** With no attempt allowed the loop body never runs and [fetch] reaches
    its final [raise], without any call. *)
Lemma fetch_without_attempts (Request_error : string -> option Exc) (self : HTTPClient.t)
    (target : string) (w : World) :
  Request_error target = None ->
  (max_retries (HTTPClient.config self) <= 0)%Z ->
  HTTPClient.fetch Request_error self target w
  = (Raise (mkExc PlainException "Unexpected error in fetch"), w).
Proof.
  intros Hreq Hk. rewrite (fetch_built _ _ _ _ Hreq).
  replace (Z.to_nat (max_retries (HTTPClient.config self))) with 0%nat by lia.
  reflexivity.
Qed.

(** ** Exceptions the loop does not catch *)

(** A request that cannot be built fails [fetch] before any attempt. *)
Lemma fetch_request_rejected (Request_error : string -> option Exc) (self : HTTPClient.t)
    (target : string) (w : World) (e : Exc) :
  Request_error target = Some e ->
  HTTPClient.fetch Request_error self target w = (Raise e, w).
Proof. intros H. unfold HTTPClient.fetch. rewrite H. reflexivity. Qed.

(** C10.  The loop retries an attempt only when its exception is a
    [URLError] or an [HTTPError] (that is what [fetch_loop_skip] walks
    through).  When, after [m] retried failures, an attempt raises any
    other exception [e], [fetch] raises that very [e]: the failing call
    is its last effect, so no further call and no backoff sleep follow
    it, and [m + 1] calls were made in all.  [scrape_url] then returns
    the outcome for that URL with the text of [e] as its error. *)
Theorem fetch_other_exception_propagates (Request_error : string -> option Exc)
    (goahead : Scanner) (cfg : ScraperConfig) (target : string)
    (w : World) (m : nat) (errs : nat -> Exc) (e : Exc) :
  Request_error target = None ->
  (Z.of_nat m < max_retries cfg)%Z ->
  fails_retriably w target m errs ->
  outcome (network w target (served w + m)%nat) = Raise e ->
  HTTPClient.is_url_error e = false ->
  exists w' evs t,
    HTTPClient.fetch Request_error (HTTPClient.__init__ cfg) target w = (Raise e, w')
    /\ trace w' = (trace w ++ evs ++ [EvUrlopen target (user_agent cfg) (timeout cfg) t])%list
    /\ urlopen_count evs = m
    /\ served w' = (served w + S m)%nat
    /\ scrape_url Request_error goahead target cfg w =
         (Ok (mkResult target None None (Some (exc_str e))),
          emit (EvLog ERROR ("Failed to scrape " ++ target ++ ": " ++ exc_str e)) w').
Proof.
  intros Hreq Hlt Hfail Hout He.
  destruct (fetch_loop_final m (HTTPClient.__init__ cfg) target
              (Z.to_nat (max_retries cfg) - S m) w errs Hfail)
    as (w' & evs & t & Hrun & Ht & Hc & Hs & _).
  - exact Hlt.
  - intros e' He'. rewrite Hout in He'. injection He' as <-. congruence.
  - assert (Hfetch : HTTPClient.fetch Request_error (HTTPClient.__init__ cfg) target w
                     = (Raise e, w')).
    { rewrite (fetch_built _ _ _ _ Hreq). cbn [HTTPClient.config HTTPClient.__init__].
      replace (Z.to_nat (max_retries cfg))
        with (m + S (Z.to_nat (max_retries cfg) - S m))%nat at 1 by lia.
      rewrite Hrun, Hout. cbn [final_result]. rewrite He. reflexivity. }
    exists w', evs, t. repeat split; try assumption.
    unfold scrape_url. rewrite Hfetch. reflexivity.
Qed.

Lemma fetch_other_exception_propagates_witness :
  exists w',
    HTTPClient.fetch no_request_error (HTTPClient.__init__ three_tries) "https://slow.example"
      (world_at 100 net_stalls) = (Raise read_timed_out, w')
    /\ served w' = 2%nat
    /\ fst (scrape_url no_request_error sample_scan "https://slow.example" three_tries
              (world_at 100 net_stalls))
       = Ok (mkResult "https://slow.example" None None (Some "The read operation timed out")).
Proof.
  destruct (fetch_other_exception_propagates no_request_error sample_scan three_tries
              "https://slow.example" (world_at 100 net_stalls) 1 (fun _ => timed_out)
              read_timed_out)
    as (w' & evs & t & Hrun & _ & _ & Hs & Hscrape).
  - reflexivity.
  - cbn. lia.
  - intros j Hj. assert (j = 0%nat) as -> by lia. split; reflexivity.
  - reflexivity.
  - reflexivity.
  - exists w'. split; [exact Hrun |]. split; [exact Hs |]. rewrite Hscrape. reflexivity.
Defined.

(** ** One URL *)

(** The extractor on a bytes object: the parser refuses it before it
    scans anything. *)
Lemma extract_bytes (goahead : Scanner) (body : list byte)
    (rules : gmap string string) :
  DataExtractor.extract goahead (PyBytes body) rules = Raise concat_bytes_error.
Proof. reflexivity. Qed.

(** The extractor on a text the scanner reads to its end: the record the
    handlers build over the events of the scan. *)
Lemma extract_str (goahead : Scanner) (s : string)
    (rules : gmap string string) (evs : list MarkupEvent) :
  goahead s = (evs, None) ->
  DataExtractor.extract goahead (PyStr s) rules =
    Ok (HTMLParser.get_extracted_data (HTMLParser.dispatch_all HTMLParser.__init__ evs)).
Proof.
  intros Hscan. unfold DataExtractor.extract, HTMLParser.feed. rewrite Hscan. reflexivity.
Qed.

(** The extractor on a text the scanner gives up on: the exception of
    the scanner, and no record. *)
Lemma extract_scan_error (goahead : Scanner) (s : string)
    (rules : gmap string string) (evs : list MarkupEvent) (e : Exc) :
  goahead s = (evs, Some e) ->
  DataExtractor.extract goahead (PyStr s) rules = Raise e.
Proof.
  intros Hscan. unfold DataExtractor.extract, HTMLParser.feed. rewrite Hscan. reflexivity.
Qed.

(** [scrape_url] by the result of [fetch].  The bytes a successful fetch
    returns go to the extractor as they are, so the second case always
    ends in the handler, after the status was set. *)
Lemma scrape_url_cases (Request_error : string -> option Exc)
    (goahead : Scanner) (target : string) (cfg : ScraperConfig)
    (w : World) :
  scrape_url Request_error goahead target cfg w =
    match HTTPClient.fetch Request_error (HTTPClient.__init__ cfg) target w with
    | (Raise e, w1) =>
        (Ok (mkResult target None None (Some (exc_str e))),
         emit (EvLog ERROR ("Failed to scrape " ++ target ++ ": " ++ exc_str e)) w1)
    | (Ok html, w1) =>
        (Ok (mkResult target (Some 200) None (Some (exc_str concat_bytes_error))),
         emit (EvLog ERROR ("Failed to scrape " ++ target ++ ": "
                            ++ exc_str concat_bytes_error)) w1)
    end.
Proof.
  unfold scrape_url.
  destruct (HTTPClient.fetch Request_error (HTTPClient.__init__ cfg) target w) as [[html | e] w1];
    reflexivity.
Qed.

(** [scrape_url] never raises and names its URL in the outcome. *)
Lemma scrape_url_returns (Request_error : string -> option Exc)
    (goahead : Scanner) (target : string) (cfg : ScraperConfig)
    (w : World) :
  exists r w', scrape_url Request_error goahead target cfg w = (Ok r, w') /\ url r = target.
Proof.
  rewrite scrape_url_cases.
  destruct (HTTPClient.fetch Request_error (HTTPClient.__init__ cfg) target w) as [[html | e] w1];
    eexists _, _; split; reflexivity.
Qed.

(** A URL whose request object cannot be built ends as an error outcome
    without any call. *)
Lemma scrape_url_request_rejected (Request_error : string -> option Exc)
    (goahead : Scanner) (target : string) (cfg : ScraperConfig)
    (w : World) (e : Exc) :
  Request_error target = Some e ->
  scrape_url Request_error goahead target cfg w =
    (Ok (mkResult target None None (Some (exc_str e))),
     emit (EvLog ERROR ("Failed to scrape " ++ target ++ ": " ++ exc_str e)) w).
Proof.
  intros Hreq. rewrite scrape_url_cases.
  rewrite (fetch_request_rejected _ _ _ _ _ Hreq). reflexivity.
Qed.

(** C5.  Every outcome [scrape_url] returns has exactly one of its data
    and error fields set: when no exception reached the handler the data
    is set and the error is not, and when one did the error is set and
    the data is not. *)
Theorem scrape_url_data_xor_error (Request_error : string -> option Exc)
    (goahead : Scanner) (target : string) (cfg : ScraperConfig)
    (w : World) :
  exists r w',
    scrape_url Request_error goahead target cfg w = (Ok r, w')
    /\ ((is_Some (data r) /\ error r = None) \/ (data r = None /\ is_Some (error r)))
    /\ (match HTTPClient.fetch Request_error (HTTPClient.__init__ cfg) target w with
        | (Raise e, _) => data r = None /\ error r = Some (exc_str e)
        | (Ok html, _) =>
            match DataExtractor.extract goahead (PyBytes html) ∅ with
            | Ok extracted => data r = Some extracted /\ error r = None
            | Raise e => data r = None /\ error r = Some (exc_str e)
            end
        end).
Proof.
  unfold scrape_url.
  destruct (HTTPClient.fetch Request_error (HTTPClient.__init__ cfg) target w) as [[html | e] w1].
  - destruct (DataExtractor.extract goahead (PyBytes html) ∅) as [extracted | e].
    + eexists _, _. split; [reflexivity |]. cbn. split; [left |]; eauto.
    + eexists _, _. split; [reflexivity |]. cbn. split; [right |]; eauto.
  - eexists _, _. split; [reflexivity |]. cbn. split; [right |]; eauto.
Qed.

(** ** The loop over the URLs *)

Lemma main_loop_acc (Request_error : string -> option Exc)
    (goahead : Scanner) (cfg : ScraperConfig) (urls : list string) :
  forall (acc : list ScrapingResult) (w : World),
  exists new w',
    main_loop Request_error goahead urls cfg acc w = (Ok (acc ++ new)%list, w')
    /\ map url new = urls.
Proof.
  induction urls as [| target rest IH]; intros acc w.
  - exists [], w. rewrite app_nil_r. split; reflexivity.
  - cbn [main_loop]. unfold bind at 1.
    destruct (scrape_url_returns Request_error goahead target cfg w) as (r & w1 & Hr & Hu).
    rewrite Hr. unfold bind at 1. cbn [Logger.log_info].
    match goal with
    | |- context [main_loop _ _ rest cfg ?a ?w2] =>
        destruct (IH a w2) as (new & w' & Hrun & Hmap)
    end.
    exists (r :: new), w'. rewrite Hrun. split.
    + rewrite <- app_assoc. reflexivity.
    + cbn. rewrite Hu, Hmap. reflexivity.
Qed.

(** C1.  For every list of URLs and every configuration the loop ends
    with a list of outcomes, one per URL and in the order of the URLs,
    whatever the network answers. *)
Theorem main_loop_one_outcome_per_url (Request_error : string -> option Exc)
    (goahead : Scanner) (urls : list string) (cfg : ScraperConfig)
    (w : World) :
  exists results w',
    main_loop Request_error goahead urls cfg [] w = (Ok results, w')
    /\ List.length results = List.length urls
    /\ map url results = urls.
Proof.
  destruct (main_loop_acc Request_error goahead cfg urls [] w) as (new & w' & Hrun & Hmap).
  exists new, w'. split; [exact Hrun |]. split; [| exact Hmap].
  rewrite <- Hmap. rewrite length_map. reflexivity.
Qed.

(** ** Pacing across URLs *)

(** The loop only adds to the trace. *)
Lemma fetch_loop_trace_grows (rem : nat) :
  forall (self : HTTPClient.t) (target : string) (attempt : Z) (w : World),
  exists evs,
    trace (snd (HTTPClient.fetch_loop self target rem attempt w)) = (trace w ++ evs)%list.
Proof.
  induction rem as [| rem IH]; intros self target attempt w.
  - exists []. rewrite app_nil_r. reflexivity.
  - destruct (fetch_loop_unfold self target rem attempt w) as (t1 & w1 & evs & _ & Hstep).
    cbn zeta in Hstep. rewrite Hstep. clear Hstep.
    destruct (outcome (network w target (served w))) as [body | e].
    + eexists. reflexivity.
    + destruct (HTTPClient.is_url_error e); [| eexists; reflexivity].
      destruct (attempt =? max_retries (HTTPClient.config self) - 1)%Z;
        [eexists; reflexivity |].
      match goal with
      | |- context [HTTPClient.fetch_loop ?s target rem (attempt + 1) ?w2] =>
          destruct (IH s target (attempt + 1)%Z w2) as (evs' & Hgrow)
      end.
      rewrite Hgrow. cbn [trace]. rewrite <- !app_assoc. eexists. reflexivity.
Qed.

(** A client built when at least [delay] seconds show on the clock
    passes the gate without sleeping. *)
Lemma fresh_client_passes (cfg : ScraperConfig) (w : World) :
  (delay cfg <= now w)%Q ->
  HTTPClient._enforce_delay (HTTPClient.__init__ cfg) w = (Ok (HTTPClient.mk cfg (now w)), w).
Proof.
  intros Hd.
  destruct (enforce_delay_cases (HTTPClient.__init__ cfg) w) as [[Hlt _] | [_ H]].
  - cbn [HTTPClient.__init__ HTTPClient.config HTTPClient.last_request_time] in Hlt. lra.
  - exact H.
Qed.

(** C9.  [scrape_url] builds its own client, whose last request time is
    0.  So for each URL, when the clock shows at least [delay], the
    first pass through the gate does not sleep, and the first effect of
    scraping the URL is the network call itself, made at the very time
    the scrape started: whatever was requested just before, for another
    URL, no interval is enforced. *)
Theorem fresh_client_per_url (Request_error : string -> option Exc)
    (goahead : Scanner) (target : string) (cfg : ScraperConfig)
    (w : World) :
  (delay cfg <= now w)%Q ->
  (1 <= max_retries cfg)%Z ->
  Request_error target = None ->
  HTTPClient.last_request_time (HTTPClient.__init__ cfg) = 0%Q
  /\ HTTPClient._enforce_delay (HTTPClient.__init__ cfg) w
     = (Ok (HTTPClient.mk cfg (now w)), w)
  /\ exists r w' later,
       scrape_url Request_error goahead target cfg w = (Ok r, w')
       /\ trace w' =
            (trace w ++ EvUrlopen target (user_agent cfg) (timeout cfg) (now w) :: later)%list.
Proof.
  intros Hd Hk Hreq. split; [reflexivity |]. split; [exact (fresh_client_passes cfg w Hd) |].
  assert (Hfetch : exists later,
             trace (snd (HTTPClient.fetch Request_error (HTTPClient.__init__ cfg) target w))
             = (trace w ++ EvUrlopen target (user_agent cfg) (timeout cfg) (now w) :: later)%list).
  { rewrite (fetch_built _ _ _ _ Hreq). cbn [HTTPClient.__init__ HTTPClient.config].
    destruct (Z.to_nat (max_retries cfg)) as [| rem] eqn:Hn; [lia |].
    cbn [HTTPClient.fetch_loop]. unfold bind at 1.
    rewrite (fresh_client_passes cfg w Hd). unfold urlopen.
    cbn [HTTPClient.config HTTPClient.__init__].
    destruct (outcome (network w target (served w))) as [body | e].
    - exists []. reflexivity.
    - destruct (HTTPClient.is_url_error e); [| exists []; reflexivity].
      destruct (0 =? max_retries cfg - 1)%Z; [exists []; reflexivity |].
      unfold bind, time_sleep.
      match goal with
      | |- context [HTTPClient.fetch_loop ?s target rem ?a ?w2] =>
          destruct (fetch_loop_trace_grows rem s target a w2) as (evs & Hgrow)
      end.
      rewrite Hgrow. cbn [trace]. rewrite <- !app_assoc. eexists. reflexivity. }
  destruct Hfetch as (later & Hlater).
  rewrite scrape_url_cases.
  destruct (HTTPClient.fetch Request_error (HTTPClient.__init__ cfg) target w) as [[html | e] w1];
    cbn [snd] in Hlater; eexists _, _, _; (split; [reflexivity |]);
    cbn [emit trace]; rewrite Hlater, <- app_assoc; reflexivity.
Qed.

Lemma fresh_client_per_url_witness :
  let first := scrape_url no_request_error sample_scan "https://example.com" main_config
                 (world_at 100 net_up) in
  let w1 := snd first in
  now w1 = 100%Q
  /\ trace w1 =
       [EvUrlopen "https://example.com" "MyScraper/1.0" 10 100;
        EvLog ERROR ("Failed to scrape https://example.com: " ++ exc_str concat_bytes_error)]
  /\ exists r w' later,
       scrape_url no_request_error sample_scan "https://example.org" main_config w1 = (Ok r, w')
       /\ trace w' =
            (trace w1 ++ EvUrlopen "https://example.org" "MyScraper/1.0" 10 100 :: later)%list.
Proof.
  intros first w1. split; [reflexivity |]. split; [reflexivity |].
  destruct (fresh_client_per_url no_request_error sample_scan "https://example.org"
              main_config w1) as (_ & _ & r & w' & later & Hrun & Ht).
  - vm_compute. discriminate.
  - cbn. lia.
  - reflexivity.
  - exists r, w', later. split; [exact Hrun | exact Ht].
Defined.

(** ** The extractor in the pipeline *)

(** C3, as the code behaves.  Whatever bytes a fetch returned, the
    extractor raises [TypeError] instead of returning a record; in
    [scrape_url] a URL that was fetched successfully therefore ends as
    an outcome with status 200, no data and that error. *)
Theorem extract_raises_on_fetched_bytes (goahead : Scanner)
    (body : list byte) (rules : gmap string string) :
  DataExtractor.extract goahead (PyBytes body) rules = Raise concat_bytes_error
  /\ fst (HTTPClient.fetch no_request_error (HTTPClient.__init__ main_config)
            "https://example.com" (world_at 100 net_up)) = Ok page
  /\ fst (scrape_url no_request_error goahead "https://example.com" main_config
            (world_at 100 net_up))
     = Ok (mkResult "https://example.com" (Some 200) None
             (Some ("can only concatenate str (not " ++ dquote ++ "bytes" ++ dquote
                    ++ ") to str"))).
Proof.
  split; [reflexivity |]. split; [reflexivity |].
  rewrite scrape_url_cases. reflexivity.
Qed.

(** ** The handlers of the parser *)

Lemma collect_hrefs_keeps (attrs : list (string * AttrValue)) :
  forall self : HTMLParser.t,
    let self' :=
      fold_left
        (fun self p =>
           if decide (fst p = "href")
           then HTMLParser.mk (HTMLParser.starttag_text self) (HTMLParser.title self)
                  (HTMLParser.links self ++ [snd p]) (HTMLParser.meta self)
           else self)
        attrs self in
    HTMLParser.starttag_text self' = HTMLParser.starttag_text self
    /\ HTMLParser.title self' = HTMLParser.title self
    /\ HTMLParser.meta self' = HTMLParser.meta self
    /\ exists more, HTMLParser.links self' = (HTMLParser.links self ++ more)%list.
Proof.
  induction attrs as [| p attrs IH]; intros self; cbn zeta.
  - repeat split. exists []. rewrite app_nil_r. reflexivity.
  - cbn [fold_left]. destruct (decide (fst p = "href")).
    + match goal with
      | |- context [fold_left _ attrs ?s] => destruct (IH s) as (H1 & H2 & H3 & more & H4)
      end.
      cbn zeta in *. rewrite H1, H2, H3, H4. repeat split.
      cbn [HTMLParser.links]. rewrite <- app_assoc. eexists. reflexivity.
    + apply IH.
Qed.

(** A start tag changes neither the title nor the remembered start tag
    text, and only adds links. *)
Lemma handle_starttag_keeps (self : HTMLParser.t) (tag : string)
    (attrs : list (string * AttrValue)) :
  let self' := HTMLParser.handle_starttag self tag attrs in
  HTMLParser.starttag_text self' = HTMLParser.starttag_text self
  /\ HTMLParser.title self' = HTMLParser.title self
  /\ exists more, HTMLParser.links self' = (HTMLParser.links self ++ more)%list.
Proof.
  cbn zeta. unfold HTMLParser.handle_starttag.
  destruct (decide (tag = "a")).
  - destruct (collect_hrefs_keeps attrs self) as (H1 & H2 & _ & H4). cbn zeta in *. auto.
  - destruct (decide (tag = "meta")).
    + destruct (HTMLParser.dict attrs !! "name") as [name |];
        [destruct (HTMLParser.dict attrs !! "content") as [content |] |];
        repeat split; exists []; rewrite app_nil_r; reflexivity.
    + repeat split. exists []. rewrite app_nil_r. reflexivity.
Qed.

(** A text sets the title when the last start tag reads [<title>], and
    is ignored otherwise. *)
Lemma handle_data_title (self : HTMLParser.t) (text : string) :
  HTMLParser.title (HTMLParser.handle_data self text) =
    if decide (HTMLParser.starttag_text self = Some "<title>")
    then strip text else HTMLParser.title self.
Proof.
  unfold HTMLParser.handle_data, HTMLParser.get_starttag_text.
  destruct (decide (HTMLParser.starttag_text self = Some "<title>")); reflexivity.
Qed.

Lemma handle_data_starttag_text (self : HTMLParser.t) (text : string) :
  HTMLParser.starttag_text (HTMLParser.handle_data self text) = HTMLParser.starttag_text self.
Proof.
  unfold HTMLParser.handle_data.
  destruct (decide (HTMLParser.get_starttag_text self = Some "<title>")); reflexivity.
Qed.

Lemma dispatch_all_app (self : HTMLParser.t) (a b : list MarkupEvent) :
  HTMLParser.dispatch_all self (a ++ b)
  = HTMLParser.dispatch_all (HTMLParser.dispatch_all self a) b.
Proof. unfold HTMLParser.dispatch_all. apply fold_left_app. Qed.

Lemma last_cons_default {A} (a d : A) (l : list A) : List.last (a :: l) d = List.last l a.
Proof.
  revert a d. induction l as [| b l IH]; intros a d; [reflexivity |].
  change (List.last (a :: b :: l) d) with (List.last (b :: l) d).
  rewrite (IH b d), (IH b a). reflexivity.
Qed.

Lemma title_of_texts (evs : list MarkupEvent) :
  forall self : HTMLParser.t,
    HTMLParser.title (HTMLParser.dispatch_all self evs) =
      List.last (map strip (title_texts (HTMLParser.starttag_text self) evs))
                (HTMLParser.title self).
Proof.
  induction evs as [| ev evs IH]; intros self; [reflexivity |].
  change (HTMLParser.dispatch_all self (ev :: evs))
    with (HTMLParser.dispatch_all (HTMLParser.dispatch self ev) evs).
  rewrite IH. destruct ev as [text tag attrs | tag | text |]; cbn [HTMLParser.dispatch title_texts].
  - match goal with
    | |- context [HTMLParser.handle_starttag ?s tag attrs] =>
        destruct (handle_starttag_keeps s tag attrs) as (H1 & H2 & _)
    end.
    cbn zeta in *. rewrite H1, H2. reflexivity.
  - reflexivity.
  - rewrite handle_data_starttag_text, handle_data_title.
    destruct (decide (HTMLParser.starttag_text self = Some "<title>")).
    + cbn [map]. rewrite last_cons_default. reflexivity.
    + reflexivity.
  - reflexivity.
Qed.

(** *** What the handlers do on a text *)

(** On a text the scanner reads to its end the extractor returns a
    record: no handler raises. *)
Lemma extract_text_returns (goahead : Scanner) (document : string)
    (rules : gmap string string) (evs : list MarkupEvent) :
  goahead document = (evs, None) ->
  exists record, DataExtractor.extract goahead (PyStr document) rules = Ok record.
Proof. intros Hscan. eexists. apply (extract_str _ _ _ _ Hscan). Qed.

(** Events other than start tags leave a parser that has seen no start
    tag as it is. *)
Lemma dispatch_all_no_tags (evs : list MarkupEvent) (self : HTMLParser.t) :
  HTMLParser.starttag_text self = None ->
  Forall (fun ev => match ev with StartTag _ _ _ => False | _ => True end) evs ->
  HTMLParser.dispatch_all self evs = self.
Proof.
  intros Hnone Hall. induction Hall as [| ev evs Hev _ IH]; [reflexivity |].
  change (HTMLParser.dispatch_all self (ev :: evs))
    with (HTMLParser.dispatch_all (HTMLParser.dispatch self ev) evs).
  destruct ev as [text tag attrs | tag | text |]; [contradiction | exact IH | | exact IH].
  cbn [HTMLParser.dispatch]. unfold HTMLParser.handle_data, HTMLParser.get_starttag_text.
  rewrite Hnone. destruct (decide (None = Some "<title>")) as [Hbad | _];
    [discriminate Hbad | exact IH].
Qed.

(** A document in which the scanner finds no start tag gives the empty
    record. *)
Lemma extract_nothing (goahead : Scanner) (document : string)
    (rules : gmap string string) (evs : list MarkupEvent) :
  goahead document = (evs, None) ->
  Forall (fun ev => match ev with StartTag _ _ _ => False | _ => True end) evs ->
  DataExtractor.extract goahead (PyStr document) rules = Ok (mkExtracted "" [] ∅).
Proof.
  intros Hscan Hall. rewrite (extract_str _ _ _ _ Hscan).
  rewrite (dispatch_all_no_tags evs HTMLParser.__init__ eq_refl Hall).
  reflexivity.
Qed.

(** Links are only ever added, so what was captured from the first part
    of a document stays, in order, at the front. *)
Lemma links_only_grow (evs : list MarkupEvent) :
  forall self : HTMLParser.t,
  exists more,
    HTMLParser.links (HTMLParser.dispatch_all self evs) = (HTMLParser.links self ++ more)%list.
Proof.
  induction evs as [| ev evs IH]; intros self.
  - exists []. rewrite app_nil_r. reflexivity.
  - change (HTMLParser.dispatch_all self (ev :: evs))
      with (HTMLParser.dispatch_all (HTMLParser.dispatch self ev) evs).
    destruct (IH (HTMLParser.dispatch self ev)) as (more & Hmore). rewrite Hmore.
    destruct ev as [text tag attrs | tag | text |]; cbn [HTMLParser.dispatch].
    + match goal with
      | |- context [HTMLParser.handle_starttag ?s tag attrs] =>
          destruct (handle_starttag_keeps s tag attrs) as (_ & _ & first & Hfirst)
      end.
      cbn zeta in Hfirst. rewrite Hfirst. cbn [HTMLParser.links].
      rewrite <- app_assoc. eexists. reflexivity.
    + eexists. reflexivity.
    + unfold HTMLParser.handle_data.
      destruct (decide (HTMLParser.get_starttag_text self = Some "<title>"));
        eexists; reflexivity.
    + eexists. reflexivity.
Qed.

Lemma links_before_are_kept (self : HTMLParser.t) (pre post : list MarkupEvent) :
  exists more,
    HTMLParser.links (HTMLParser.dispatch_all self (pre ++ post))
    = (HTMLParser.links (HTMLParser.dispatch_all self pre) ++ more)%list.
Proof. rewrite dispatch_all_app. apply links_only_grow. Qed.

(** The record of the sample document. *)
Example sample_document_record :
  DataExtractor.extract sample_scan (PyStr doc_sample) ∅
  = Ok (mkExtracted "Hi" [Some "/a"; Some "/b"] {[ Some "x" := Some "y" ]}).
Proof. reflexivity. Qed.

(** A text the scanner gives up on has no record at all: the marked
    section [<![x]>] makes [feed] raise after the title tags before it
    were handled. *)
Example marked_section_raises :
  DataExtractor.extract edge_scan (PyStr "<TITLE>Hi</TITLE><![x]>") ∅
  = Raise marked_section_error.
Proof. reflexivity. Qed.

(** What the title is, for every text the scanner reads to its end: the
    stripped text of the last text reported while the source text of the
    most recently opened start tag was exactly [<title>], and empty when
    there is no such text.  Closing the title does not end that; a text
    reported after any other start tag never changes the title. *)
Lemma title_is_last_text_under_title (goahead : Scanner)
    (document : string) (rules : gmap string string) (evs : list MarkupEvent) :
  goahead document = (evs, None) ->
  exists record,
    DataExtractor.extract goahead (PyStr document) rules = Ok record
    /\ title record = List.last (map strip (title_texts None evs)) "".
Proof.
  intros Hscan. eexists. split; [apply (extract_str _ _ _ _ Hscan) |].
  cbn [HTMLParser.get_extracted_data title]. apply title_of_texts.
Qed.

(** A text reported after a start tag other than [<title>] is ignored. *)
Lemma text_under_other_tag_ignored (self : HTMLParser.t) (text : string) :
  HTMLParser.starttag_text self <> Some "<title>" ->
  HTMLParser.title (HTMLParser.handle_data self text) = HTMLParser.title self.
Proof.
  intros Hne. rewrite handle_data_title.
  destruct (decide (HTMLParser.starttag_text self = Some "<title>")); [contradiction | reflexivity].
Qed.

(** C4, at the inputs where the code departs from it.  On
    [<title>Hi</title> Home <a href>x</a>] the text after the closing
    tag does not immediately follow the opening of the title, yet it
    replaces the title: the extracted title is [Home], not [Hi].  On
    [<title>Hi</title>] followed by a line break and [<p>x</p>] the
    line break wipes the title.  So a later text is not always
    ignored. *)
Theorem title_replaced_after_closing_tag :
  let pre := [StartTag "<title>" "title" []; Data "Hi"; EndTag "title"] in
  follows_title_open pre = false
  /\ HTMLParser.title (HTMLParser.dispatch_all HTMLParser.__init__ pre) = "Hi"
  /\ HTMLParser.title (HTMLParser.dispatch_all HTMLParser.__init__ (pre ++ [Data " Home "]))
     = "Home"
  /\ DataExtractor.extract sample_scan (PyStr doc_title_then_text) ∅
     = Ok (mkExtracted "Home" [None] ∅)
  /\ DataExtractor.extract sample_scan (PyStr doc_title_then_newline) ∅
     = Ok (mkExtracted "" [] ∅)
  /\ ~ later_text_is_ignored.
Proof.
  cbn zeta. split; [reflexivity |]. split; [reflexivity |]. split; [reflexivity |].
  split; [reflexivity |]. split; [reflexivity |].
  intros Hclaim.
  specialize (Hclaim [StartTag "<title>" "title" []; Data "Hi"; EndTag "title"] " Home "
                eq_refl).
  vm_compute in Hclaim. discriminate Hclaim.
Qed.

(** ** The result sink *)

Lemma append_assoc (a b c : string) : ((a ++ b) ++ c = a ++ (b ++ c))%string.
Proof.
  induction a as [| x a IH]; [reflexivity |].
  change (String x ((a ++ b) ++ c) = String x (a ++ (b ++ c)))%string.
  rewrite IH. reflexivity.
Qed.

Lemma append_nil_r (a : string) : (a ++ "" = a)%string.
Proof.
  induction a as [| x a IH]; [reflexivity |].
  change (String x (a ++ "") = String x a)%string.
  rewrite IH. reflexivity.
Qed.

(** Joining links that are all strings never raises. *)
Lemma join_strings (sep : string) (items : list AttrValue) :
  forallb (fun v => match v with Some _ => true | None => false end) items = true ->
  forall i,
    join_from sep i items =
      Ok (String.concat sep
            (flat_map (fun v => match v with Some s => [s] | None => [] end) items)).
Proof.
  induction items as [| [s |] rest IH]; intros Hall i; [reflexivity | | discriminate Hall].
  cbn [forallb andb] in Hall. cbn [join_from flat_map].
  destruct rest as [| v rest']; [reflexivity |].
  rewrite (IH Hall (i + 1)%Z).
  destruct v as [s' |]; [| discriminate Hall].
  reflexivity.
Qed.

(** On an outcome whose links are strings the row built by the code,
    which tests truth values, is the row of the specification, which
    tests for absence. *)
Lemma csv_row_spec (o : ScrapingResult) :
  links_are_strings o = true -> ResultHandler.csv_row o = Ok (spec_csv_row o).
Proof.
  unfold links_are_strings, ResultHandler.csv_row, spec_csv_row, join, link_strings.
  intros Hl. destruct (data o) as [d |].
  - cbn [ResultHandler.truthy_data]. rewrite (join_strings ", " (links d) Hl 0).
    destruct (error o) as [msg |]; [| reflexivity].
    cbn [ResultHandler.truthy_str]. destruct (String.eqb msg "") eqn:E; [| reflexivity].
    apply String.eqb_eq in E. subst msg. reflexivity.
  - destruct (error o) as [msg |]; [| reflexivity].
    cbn [ResultHandler.truthy_str]. destruct (String.eqb msg "") eqn:E; [| reflexivity].
    apply String.eqb_eq in E. subst msg. reflexivity.
Qed.

Lemma write_rows_spec (path : string) (results : list ScrapingResult) :
  forallb links_are_strings results = true ->
  forall (w : World) (content : string),
    fs w !! path = Some content ->
    exists w',
      ResultHandler.write_rows path results w = (Ok tt, w')
      /\ fs w' !! path =
           Some (content ++ fold_right String.append ""
                   (map (fun o => csv_writerow (spec_csv_row o)) results))%string
      /\ forall p, p <> path -> fs w' !! p = fs w !! p.
Proof.
  induction results as [| o rest IH]; intros Hall w content Hc.
  - exists w. cbn. rewrite append_nil_r. auto.
  - cbn [forallb] in Hall. apply andb_prop in Hall as [Ho Hrest].
    cbn [ResultHandler.write_rows]. unfold bind at 1, lift. rewrite (csv_row_spec o Ho).
    unfold bind at 1, file_write.
    match goal with
    | |- context [ResultHandler.write_rows path rest ?w2] =>
        destruct (IH Hrest w2 (content ++ csv_writerow (spec_csv_row o))%string)
          as (w' & Hrun & Hfile & Hother)
    end.
    + cbn [fs]. rewrite Hc. cbn [default]. apply lookup_insert_eq.
    + exists w'. split; [exact Hrun |]. split.
      * rewrite Hfile. cbn [map fold_right]. rewrite append_assoc. reflexivity.
      * intros p Hp. rewrite (Hother p Hp). cbn [fs]. apply lookup_insert_ne. congruence.
Qed.

(** C6.  For every sequence of outcomes as [ExtractedData] declares
    them, [links] a list of strings, with the csv format and a
    destination that [open] opens, [save_results] returns normally and
    the destination then holds exactly the header line
    [URL,Status,Title,Links,Error] followed by one line per outcome, in
    order, whose cells are the URL, the status, the title or the empty
    string without a record, the links joined with a comma and a space
    or the empty string without a record, and the error message or the
    empty string without one; no other file changes. *)
Theorem csv_file_matches_spec (json_chunks : Encoder)
    (results : list ScrapingResult) (cfg : ScraperConfig) (w : World) :
  output_format cfg = "csv" ->
  open_error w (output_path cfg) = None ->
  forallb links_are_strings results = true ->
  exists w',
    ResultHandler.save_results json_chunks results cfg w = (Ok tt, w')
    /\ fs w' !! output_path cfg = Some (spec_csv_text results)
    /\ forall p, p <> output_path cfg -> fs w' !! p = fs w !! p.
Proof.
  intros Hfmt Hopen Hall. unfold ResultHandler.save_results. rewrite Hfmt.
  destruct (decide ("csv" = "json")) as [Hbad | _]; [discriminate Hbad |].
  destruct (decide ("csv" = "csv")) as [_ | Hbad]; [| contradiction].
  unfold bind at 1, open_w. rewrite Hopen. unfold bind at 1, file_write.
  match goal with
  | |- context [ResultHandler.write_rows _ results ?w2] =>
      destruct (write_rows_spec (output_path cfg) results Hall w2
                  ("URL,Status,Title,Links,Error" ++ lineterminator)%string)
        as (w' & Hrun & Hfile & Hother)
  end.
  - cbn [fs]. rewrite !lookup_insert_eq. reflexivity.
  - exists w'. split; [exact Hrun |]. split; [exact Hfile |].
    intros p Hp. rewrite (Hother p Hp). cbn [fs].
    rewrite !lookup_insert_ne by congruence. reflexivity.
Qed.

Lemma csv_file_matches_spec_witness :
  exists w',
    ResultHandler.save_results no_json [fetched_ok; fetch_failed] csv_output
      (world_at 100 net_up) = (Ok tt, w')
    /\ fs w' !! "results.csv" = Some (spec_csv_text [fetched_ok; fetch_failed])
    /\ csv_writerow (spec_csv_row fetched_ok)
       = ("https://good.example,200,Hi," ++ dquote ++ "/a, /b" ++ dquote ++ ","
          ++ lineterminator)%string.
Proof.
  destruct (csv_file_matches_spec no_json [fetched_ok; fetch_failed] csv_output
              (world_at 100 net_up)) as (w' & Hrun & Hfile & _).
  - reflexivity.
  - reflexivity.
  - reflexivity.
  - exists w'. split; [exact Hrun |]. split; [exact Hfile | reflexivity].
Defined.

(** C7.  With an output format that is neither [json] nor [csv],
    [save_results] raises the unsupported-format [ValueError] and leaves
    the world as it found it: no file was opened, truncated or written. *)
Theorem unsupported_format_writes_nothing (json_chunks : Encoder)
    (results : list ScrapingResult) (cfg : ScraperConfig) (w : World) :
  output_format cfg <> "json" ->
  output_format cfg <> "csv" ->
  ResultHandler.save_results json_chunks results cfg w =
    (Raise (mkExc ValueError ("Unsupported output format: " ++ output_format cfg)), w).
Proof.
  intros Hj Hc. unfold ResultHandler.save_results.
  destruct (decide (output_format cfg = "json")); [contradiction |].
  destruct (decide (output_format cfg = "csv")); [contradiction |].
  reflexivity.
Qed.

Lemma unsupported_format_writes_nothing_witness :
  let w := world_at 100 net_up in
  ResultHandler.save_results no_json [fetched_ok; fetch_failed] xml_output w =
    (Raise (mkExc ValueError "Unsupported output format: xml"), w).
Proof.
  intros w.
  apply (unsupported_format_writes_nothing no_json [fetched_ok; fetch_failed] xml_output w);
    discriminate.
Defined.

(** * Further properties of the module *)

(** ** Links and metadata *)

Lemma collect_hrefs_exact (attrs : list (string * AttrValue)) :
  forall self : HTMLParser.t,
    HTMLParser.links
      (fold_left
         (fun self p =>
            if decide (fst p = "href")
            then HTMLParser.mk (HTMLParser.starttag_text self) (HTMLParser.title self)
                   (HTMLParser.links self ++ [snd p]) (HTMLParser.meta self)
            else self)
         attrs self)
    = (HTMLParser.links self
       ++ map snd (List.filter (fun p => bool_decide (fst p = "href")) attrs))%list.
Proof.
  induction attrs as [| p attrs IH]; intros self.
  - cbn. rewrite app_nil_r. reflexivity.
  - cbn [fold_left List.filter]. rewrite IH. destruct (decide (fst p = "href")) as [Hp | Hp].
    + rewrite (bool_decide_eq_true_2 _ Hp). cbn [HTMLParser.links map].
      rewrite <- app_assoc. reflexivity.
    + rewrite (bool_decide_eq_false_2 _ Hp). reflexivity.
Qed.

Lemma dispatch_links (self : HTMLParser.t) (ev : MarkupEvent) :
  HTMLParser.links (HTMLParser.dispatch self ev) = (HTMLParser.links self ++ hrefs_of ev)%list.
Proof.
  destruct ev as [text tag attrs | tag | text |]; cbn [HTMLParser.dispatch hrefs_of];
    try (rewrite app_nil_r; reflexivity).
  - unfold HTMLParser.handle_starttag. destruct (decide (tag = "a")).
    + rewrite collect_hrefs_exact. reflexivity.
    + rewrite app_nil_r. destruct (decide (tag = "meta")); [| reflexivity].
      destruct (HTMLParser.dict attrs !! "name") as [name |];
        [destruct (HTMLParser.dict attrs !! "content") as [content |] |]; reflexivity.
  - unfold HTMLParser.handle_data.
    destruct (decide (HTMLParser.get_starttag_text self = Some "<title>"));
      rewrite app_nil_r; reflexivity.
Qed.

Lemma dispatch_all_links (evs : list MarkupEvent) :
  forall self : HTMLParser.t,
    HTMLParser.links (HTMLParser.dispatch_all self evs)
    = (HTMLParser.links self ++ flat_map hrefs_of evs)%list.
Proof.
  induction evs as [| ev evs IH]; intros self.
  - cbn. rewrite app_nil_r. reflexivity.
  - change (HTMLParser.dispatch_all self (ev :: evs))
      with (HTMLParser.dispatch_all (HTMLParser.dispatch self ev) evs).
    rewrite IH, dispatch_links. cbn [flat_map]. rewrite <- app_assoc. reflexivity.
Qed.

(** X1.  When the scanner reads a text to its end, the links of the
    extracted record are exactly the [href] values of its [a] start
    tags, in document order and, within a tag, in attribute order:
    repeated values are kept, a value-less [href] gives [None], and no
    other tag or text contributes.  When the scanner raises, so does the
    extractor, with the same exception, and there is no record. *)
Theorem links_in_document_order (goahead : Scanner)
    (document : string) (rules : gmap string string) :
  match goahead document with
  | (evs, None) =>
      exists record,
        DataExtractor.extract goahead (PyStr document) rules = Ok record
        /\ links record = flat_map hrefs_of evs
  | (_, Some e) => DataExtractor.extract goahead (PyStr document) rules = Raise e
  end.
Proof.
  destruct (goahead document) as [evs [e |]] eqn:Hscan.
  - apply (extract_scan_error _ _ _ _ _ Hscan).
  - eexists. split; [apply (extract_str _ _ _ _ Hscan) |].
    cbn [HTMLParser.get_extracted_data links]. rewrite dispatch_all_links. reflexivity.
Qed.

Lemma dispatch_meta (self : HTMLParser.t) (ev : MarkupEvent) :
  HTMLParser.meta (HTMLParser.dispatch self ev) =
    match meta_binding ev with
    | Some (name, content) => <[name := content]> (HTMLParser.meta self)
    | None => HTMLParser.meta self
    end.
Proof.
  destruct ev as [text tag attrs | tag | text |]; cbn [HTMLParser.dispatch meta_binding];
    try reflexivity.
  - unfold HTMLParser.handle_starttag. destruct (decide (tag = "a")) as [Ha | Ha].
    + destruct (collect_hrefs_keeps attrs
                  (HTMLParser.mk (Some text) (HTMLParser.title self) (HTMLParser.links self)
                     (HTMLParser.meta self))) as (_ & _ & Hm & _).
      cbn zeta in Hm. rewrite Hm. subst tag.
      destruct (decide ("a" = "meta")) as [Hbad | _]; [discriminate Hbad | reflexivity].
    + destruct (decide (tag = "meta")); [| reflexivity].
      destruct (HTMLParser.dict attrs !! "name") as [name |];
        [destruct (HTMLParser.dict attrs !! "content") as [content |] |]; reflexivity.
  - unfold HTMLParser.handle_data.
    destruct (decide (HTMLParser.get_starttag_text self = Some "<title>")); reflexivity.
Qed.

(** Events that record nothing for a name leave its entry alone. *)
Lemma dispatch_all_meta_other (n : AttrValue) (evs : list MarkupEvent) :
  Forall (fun ev => binds_name n ev = false) evs ->
  forall self : HTMLParser.t,
    HTMLParser.meta (HTMLParser.dispatch_all self evs) !! n = HTMLParser.meta self !! n.
Proof.
  induction 1 as [| ev evs Hev _ IH]; intros self; [reflexivity |].
  change (HTMLParser.dispatch_all self (ev :: evs))
    with (HTMLParser.dispatch_all (HTMLParser.dispatch self ev) evs).
  rewrite IH, dispatch_meta. unfold binds_name in Hev.
  destruct (meta_binding ev) as [[name content] |]; [| reflexivity].
  apply bool_decide_eq_false_1 in Hev. apply lookup_insert_ne. exact Hev.
Qed.

(** X2.  Metadata is last-write-wins: when the scanner reads the text to
    its end and a [meta] tag with both a name and a content attribute is
    followed by no other such tag for the same name, the record maps
    that name to that content, whatever came before. *)
Theorem meta_last_write_wins (goahead : Scanner)
    (document : string) (rules : gmap string string)
    (pre post : list MarkupEvent) (ev : MarkupEvent) (name content : AttrValue) :
  goahead document = ((pre ++ ev :: post)%list, None) ->
  meta_binding ev = Some (name, content) ->
  Forall (fun later => binds_name name later = false) post ->
  exists record,
    DataExtractor.extract goahead (PyStr document) rules = Ok record
    /\ meta record !! name = Some content.
Proof.
  intros Hdoc Hev Hpost. eexists. split; [apply (extract_str _ _ _ _ Hdoc) |].
  cbn [HTMLParser.get_extracted_data meta]. rewrite dispatch_all_app.
  change (HTMLParser.dispatch_all ?s (ev :: post))
    with (HTMLParser.dispatch_all (HTMLParser.dispatch s ev) post).
  rewrite (dispatch_all_meta_other name post Hpost), dispatch_meta, Hev.
  apply lookup_insert_eq.
Qed.

Lemma meta_last_write_wins_witness :
  exists record,
    DataExtractor.extract edge_scan
      (PyStr "<meta name=k content=1><meta name=k content=2><meta name=z>") ∅ = Ok record
    /\ meta record !! Some "k" = Some (Some "2")
    /\ meta record !! Some "z" = None.
Proof.
  destruct (meta_last_write_wins edge_scan
              "<meta name=k content=1><meta name=k content=2><meta name=z>" ∅
              [StartTag "<meta name=k content=1>" "meta"
                 [("name", Some "k"); ("content", Some "1")]]
              [StartTag "<meta name=z>" "meta" [("name", Some "z")]]
              (StartTag "<meta name=k content=2>" "meta"
                 [("name", Some "k"); ("content", Some "2")])
              (Some "k") (Some "2")) as (record & Hrun & Hk).
  - reflexivity.
  - reflexivity.
  - repeat constructor.
  - exists record. split; [exact Hrun |]. split; [exact Hk |].
    rewrite (extract_str edge_scan
               "<meta name=k content=1><meta name=k content=2><meta name=z>" ∅
               repeated_meta eq_refl) in Hrun.
    injection Hrun as <-. reflexivity.
Defined.

(** ** The title *)

Lemma title_texts_without_title_tag (evs : list MarkupEvent) :
  Forall (fun ev => opens_title ev = false) evs ->
  forall last_start : option string,
    last_start <> Some "<title>" -> title_texts last_start evs = [].
Proof.
  induction 1 as [| ev evs Hev _ IH]; intros last_start Hne; [reflexivity |].
  destruct ev as [text tag attrs | tag | text |]; cbn [title_texts].
  - apply IH. cbn [opens_title] in Hev. apply bool_decide_eq_false_1 in Hev. congruence.
  - apply IH. exact Hne.
  - destruct (decide (last_start = Some "<title>")); [contradiction | apply IH; exact Hne].
  - apply IH. exact Hne.
Qed.

(** X3.  The title is captured only under a start tag whose source text
    is exactly [<title>]: a document the scanner reads to its end and in
    which no start tag reads so, for instance one that writes [<TITLE>]
    or gives the tag an attribute, has the empty title. *)
Theorem title_needs_exact_tag (goahead : Scanner)
    (document : string) (rules : gmap string string) (evs : list MarkupEvent) :
  goahead document = (evs, None) ->
  Forall (fun ev => opens_title ev = false) evs ->
  exists record,
    DataExtractor.extract goahead (PyStr document) rules = Ok record
    /\ title record = "".
Proof.
  intros Hscan Hall. eexists. split; [apply (extract_str _ _ _ _ Hscan) |].
  cbn [HTMLParser.get_extracted_data title]. rewrite title_of_texts.
  rewrite (title_texts_without_title_tag _ Hall); [reflexivity | discriminate].
Qed.

Lemma title_needs_exact_tag_witness :
  (exists record,
     DataExtractor.extract edge_scan (PyStr "<TITLE>Hi</TITLE>") ∅ = Ok record
     /\ title record = "")
  /\ (exists record,
        DataExtractor.extract edge_scan (PyStr "<title lang=en>Hi</title>") ∅ = Ok record
        /\ title record = "").
Proof.
  split.
  - apply (title_needs_exact_tag edge_scan "<TITLE>Hi</TITLE>" ∅ upper_case_title);
      [reflexivity | repeat constructor].
  - apply (title_needs_exact_tag edge_scan "<title lang=en>Hi</title>" ∅ title_with_attribute);
      [reflexivity | repeat constructor].
Defined.

Lemma rstrip_keeps_head (c : ascii) (r : string) :
  isspace c = false -> rstrip (String c r) = String c (rstrip r).
Proof. intros Hc. cbn [rstrip]. destruct (rstrip r); [rewrite Hc |]; reflexivity. Qed.

Lemma rstrip_idempotent (s : string) : rstrip (rstrip s) = rstrip s.
Proof.
  induction s as [| c r IH]; [reflexivity |].
  cbn [rstrip]. destruct (rstrip r) as [| c' r'] eqn:E.
  - destruct (isspace c) eqn:Hc; [reflexivity |]. cbn [rstrip]. rewrite Hc. reflexivity.
  - cbn [rstrip] in *. rewrite IH. reflexivity.
Qed.

Lemma lstrip_head (s : string) :
  lstrip s = EmptyString \/ exists c r, lstrip s = String c r /\ isspace c = false.
Proof.
  induction s as [| c r IH]; [left; reflexivity |].
  cbn [lstrip]. destruct (isspace c) eqn:Hc; [exact IH |].
  right. exists c, r. split; [reflexivity | exact Hc].
Qed.

Lemma strip_idempotent (s : string) : strip (strip s) = strip s.
Proof.
  unfold strip. destruct (lstrip_head s) as [-> | (c & r & -> & Hc)]; [reflexivity |].
  rewrite (rstrip_keeps_head c r Hc). cbn [lstrip]. rewrite Hc.
  rewrite (rstrip_keeps_head c _ Hc), rstrip_idempotent. reflexivity.
Qed.

(** What [strip] leaves neither starts nor ends with white space. *)
Lemma strip_no_leading_space (s : string) :
  match strip s with
  | String c _ => isspace c = false
  | EmptyString => True
  end.
Proof.
  unfold strip. destruct (lstrip_head s) as [-> | (c & r & -> & Hc)]; [exact I |].
  rewrite (rstrip_keeps_head c r Hc). exact Hc.
Qed.

Lemma last_of_stripped (texts : list string) :
  forall d : string, strip d = d ->
    strip (List.last (map strip texts) d) = List.last (map strip texts) d.
Proof.
  induction texts as [| t texts IH]; intros d Hd; [exact Hd |].
  cbn [map]. rewrite last_cons_default. apply IH. apply strip_idempotent.
Qed.

(** X4.  Whenever the extractor returns a record for a text, its title
    is stripped: stripping it again changes nothing, and it does not
    start with white space.  (Texts are strings of code points below
    256, white space as [str.isspace] has it there.)  The extractor
    returns a record exactly when the scanner reads the text to its
    end. *)
Theorem title_is_stripped (goahead : Scanner)
    (document : string) (rules : gmap string string) :
  match goahead document with
  | (evs, None) =>
      exists record,
        DataExtractor.extract goahead (PyStr document) rules = Ok record
        /\ strip (title record) = title record
        /\ match title record with
           | String c _ => isspace c = false
           | EmptyString => True
           end
  | (_, Some e) => DataExtractor.extract goahead (PyStr document) rules = Raise e
  end.
Proof.
  destruct (goahead document) as [evs [e |]] eqn:Hscan.
  - apply (extract_scan_error _ _ _ _ _ Hscan).
  - eexists. split; [apply (extract_str _ _ _ _ Hscan) |].
    cbn [HTMLParser.get_extracted_data title]. rewrite title_of_texts.
    cbn [HTMLParser.__init__ HTMLParser.starttag_text HTMLParser.title].
    assert (Hs : strip (List.last (map strip (title_texts None evs)) "")
                 = List.last (map strip (title_texts None evs)) "").
    { apply last_of_stripped. reflexivity. }
    split; [exact Hs |]. rewrite <- Hs. apply strip_no_leading_space.
Qed.

(** ** Bounds and edges of the retry loop *)

(** Whatever the network answers, the loop makes between zero and
    [rem] calls, records each of them, and leaves the network script and
    the files alone. *)
Lemma fetch_loop_frame (rem : nat) :
  forall (self : HTTPClient.t) (target : string) (attempt : Z) (w : World),
    let w' := snd (HTTPClient.fetch_loop self target rem attempt w) in
    (served w <= served w' <= served w + rem)%nat
    /\ network w' = network w /\ fs w' = fs w /\ open_error w' = open_error w
    /\ exists evs, trace w' = (trace w ++ evs)%list
                   /\ urlopen_count evs = (served w' - served w)%nat.
Proof.
  induction rem as [| rem IH]; intros self target attempt w; cbn zeta.
  - cbn. repeat split; try lia. exists []. rewrite app_nil_r. split; [reflexivity | cbn; lia].
  - destruct (fetch_loop_unfold self target rem attempt w) as (t1 & w1 & evs & Hc & Hstep).
    cbn zeta in Hstep. rewrite Hstep. clear Hstep.
    assert (Hone : forall r : Result (list byte),
               let w2 := mkWorld (now w1 + latency (network w target (served w)))%Q
                           (S (served w)) (network w) (fs w) (open_error w)
                           (trace w ++ evs ++
                            [EvUrlopen target (user_agent (HTTPClient.config self))
                               (timeout (HTTPClient.config self)) (now w1)]) in
               (served w <= served (snd (r, w2)) <= served w + S rem)%nat
               /\ network (snd (r, w2)) = network w /\ fs (snd (r, w2)) = fs w
               /\ open_error (snd (r, w2)) = open_error w
               /\ exists evs', trace (snd (r, w2)) = (trace w ++ evs')%list
                               /\ urlopen_count evs' = (served (snd (r, w2)) - served w)%nat).
    { intros r. cbn. repeat split; try lia. eexists. split; [reflexivity |].
      rewrite urlopen_count_app, Hc. cbn. lia. }
    destruct (outcome (network w target (served w))) as [body | e]; [apply Hone |].
    destruct (HTTPClient.is_url_error e); [| apply Hone].
    destruct (attempt =? max_retries (HTTPClient.config self) - 1)%Z; [apply Hone |].
    clear Hone.
    match goal with
    | |- context [HTTPClient.fetch_loop ?s target rem (attempt + 1) ?w2] =>
        pose proof (IH s target (attempt + 1)%Z w2) as Hrec;
        set (res := HTTPClient.fetch_loop s target rem (attempt + 1) w2) in *
    end.
    cbn zeta in Hrec. cbn [served network fs open_error trace] in Hrec.
    destruct Hrec as (Hs & Hn & Hf & Ho & evs' & Ht & Hc').
    split; [lia |]. split; [exact Hn |]. split; [exact Hf |]. split; [exact Ho |].
    eexists. split.
    + rewrite Ht. rewrite <- !app_assoc. reflexivity.
    + rewrite !urlopen_count_app, Hc, Hc'. cbn. lia.
Qed.

(** X5.  Whatever the network answers and whatever the result, [fetch]
    makes at most [max_retries] network calls (none when [max_retries]
    is zero or negative), each recorded once, and it touches no file. *)
Theorem fetch_attempts_bounded (Request_error : string -> option Exc) (self : HTTPClient.t)
    (target : string) (w : World) :
  let w' := snd (HTTPClient.fetch Request_error self target w) in
  (served w <= served w' <= served w + Z.to_nat (max_retries (HTTPClient.config self)))%nat
  /\ fs w' = fs w
  /\ exists evs, trace w' = (trace w ++ evs)%list
                 /\ urlopen_count evs = (served w' - served w)%nat.
Proof.
  cbn zeta. unfold HTTPClient.fetch. destruct (Request_error target) as [e |].
  - cbn. split; [lia |]. split; [reflexivity |]. exists []. rewrite app_nil_r.
    split; [reflexivity | cbn; lia].
  - destruct (fetch_loop_frame (Z.to_nat (max_retries (HTTPClient.config self))) self target 0 w)
      as (Hs & _ & Hf & _ & Hev).
    cbn zeta in *. split; [exact Hs |]. split; [exact Hf | exact Hev].
Qed.

(** X6.  With [max_retries] zero or negative the loop body never runs:
    [fetch] raises its closing exception without any call, sleep or
    other effect, and [scrape_url] reports that text as the error of
    the URL. *)
Theorem no_attempt_allowed (Request_error : string -> option Exc)
    (goahead : Scanner) (target : string) (cfg : ScraperConfig)
    (w : World) :
  Request_error target = None ->
  (max_retries cfg <= 0)%Z ->
  HTTPClient.fetch Request_error (HTTPClient.__init__ cfg) target w
    = (Raise (mkExc PlainException "Unexpected error in fetch"), w)
  /\ scrape_url Request_error goahead target cfg w
     = (Ok (mkResult target None None (Some "Unexpected error in fetch")),
        emit (EvLog ERROR ("Failed to scrape " ++ target ++ ": Unexpected error in fetch")) w).
Proof.
  intros Hreq Hk.
  assert (Hfetch : HTTPClient.fetch Request_error (HTTPClient.__init__ cfg) target w
                   = (Raise (mkExc PlainException "Unexpected error in fetch"), w)).
  { apply fetch_without_attempts; assumption. }
  split; [exact Hfetch |]. rewrite scrape_url_cases, Hfetch. reflexivity.
Qed.

Lemma no_attempt_allowed_witness :
  fst (scrape_url no_request_error sample_scan "https://example.com" no_tries
         (world_at 100 net_up))
  = Ok (mkResult "https://example.com" None None (Some "Unexpected error in fetch"))
  /\ served (snd (scrape_url no_request_error sample_scan "https://example.com" no_tries
                    (world_at 100 net_up))) = 0%nat.
Proof.
  destruct (no_attempt_allowed no_request_error sample_scan "https://example.com" no_tries
              (world_at 100 net_up)) as [_ Hscrape].
  - reflexivity.
  - cbn. lia.
  - rewrite Hscrape. split; reflexivity.
Defined.

(** X7.  With [max_retries = 1] there is exactly one attempt and never a
    backoff sleep: after the gate, the call is the last effect of
    [fetch], whose result is the bytes read, the exception of the call
    when it is not retriable, and the retries-exhausted exception
    otherwise. *)
Theorem single_attempt_never_backs_off (Request_error : string -> option Exc)
    (self : HTTPClient.t) (target : string) (w : World) :
  max_retries (HTTPClient.config self) = 1 ->
  Request_error target = None ->
  exists c1 w1 w',
    HTTPClient._enforce_delay self w = (Ok c1, w1)
    /\ HTTPClient.fetch Request_error self target w
       = (final_result 1 (outcome (network w target (served w))), w')
    /\ trace w' = (trace w1 ++ [EvUrlopen target (user_agent (HTTPClient.config self))
                                  (timeout (HTTPClient.config self)) (now w1)])%list
    /\ served w' = S (served w).
Proof.
  intros Hk Hreq.
  destruct (enforce_delay_frame self w) as (t1 & w1 & evs & He & Hs & Hn & Hf & Ho & Ht & Hc).
  eexists _, w1, _. split; [exact He |].
  rewrite (fetch_built _ _ _ _ Hreq), Hk.
  change (Z.to_nat 1) with 1%nat. cbn [HTTPClient.fetch_loop]. unfold bind at 1. rewrite He.
  unfold urlopen. rewrite Hs, Hn, Hk. cbn [HTTPClient.config].
  destruct (outcome (network w target (served w))) as [body | e].
  - split; [reflexivity |]. split; reflexivity.
  - cbn [final_result]. destruct (HTTPClient.is_url_error e).
    + change (0 =? 1 - 1)%Z with true. cbn iota. split; [reflexivity |]. split; reflexivity.
    + split; [reflexivity |]. split; reflexivity.
Qed.

Lemma single_attempt_never_backs_off_witness :
  exists w',
    HTTPClient.fetch no_request_error (HTTPClient.__init__ one_try) "https://bad.example"
      (world_at 100 net_down) = (Raise (retries_exhausted 1 timed_out), w')
    /\ trace w' = [EvUrlopen "https://bad.example" "MyScraper/1.0" 10 100].
Proof.
  destruct (single_attempt_never_backs_off no_request_error (HTTPClient.__init__ one_try)
              "https://bad.example" (world_at 100 net_down))
    as (c1 & w1 & w' & He & Hrun & Ht & _).
  - reflexivity.
  - reflexivity.
  - exists w'. split; [exact Hrun |].
    rewrite Ht. vm_compute in He. injection He as _ <-. reflexivity.
Defined.

(** ** How backoff and pacing compose *)

(** The gate records the time at which it lets the caller go. *)
Lemma enforce_delay_records (self : HTTPClient.t) (w : World) :
  exists w1 evs,
    HTTPClient._enforce_delay self w = (Ok (HTTPClient.mk (HTTPClient.config self) (now w1)), w1)
    /\ served w1 = served w /\ network w1 = network w
    /\ trace w1 = (trace w ++ evs)%list /\ urlopen_count evs = 0%nat
    /\ (now w <= now w1)%Q.
Proof.
  destruct (enforce_delay_cases self w) as [[Hlt H] | [_ H]]; cbn zeta in *; rewrite H.
  - match goal with
    | |- context [(Ok _, ?w1)] => exists w1
    end.
    eexists [_]. cbn [now served network trace].
    split; [reflexivity |]. split; [reflexivity |]. split; [reflexivity |].
    split; [reflexivity |]. split; [reflexivity |]. lra.
  - exists w, []. rewrite app_nil_r.
    split; [reflexivity |]. split; [reflexivity |]. split; [reflexivity |].
    split; [reflexivity |]. split; [reflexivity |]. lra.
Qed.

(** One iteration, given what the gate did. *)
Lemma fetch_loop_step (self c1 : HTTPClient.t) (target : string) (rest : nat)
    (attempt : Z) (w w1 : World) :
  HTTPClient._enforce_delay self w = (Ok c1, w1) ->
  HTTPClient.fetch_loop self target (S rest) attempt w =
    match urlopen target (user_agent (HTTPClient.config self))
            (timeout (HTTPClient.config self)) w1 with
    | (Ok body, w2) => (Ok body, w2)
    | (Raise e, w2) =>
        if HTTPClient.is_url_error e then
          if (attempt =? max_retries (HTTPClient.config self) - 1)%Z then
            (Raise (retries_exhausted (max_retries (HTTPClient.config self)) e), w2)
          else
            HTTPClient.fetch_loop c1 target rest (attempt + 1)
              (snd (time_sleep (inject_Z (2 ^ attempt)) w2))
        else (Raise e, w2)
    end.
Proof.
  intros He. cbn [HTTPClient.fetch_loop]. unfold bind at 1. rewrite He.
  destruct (urlopen target (user_agent (HTTPClient.config self))
              (timeout (HTTPClient.config self)) w1) as [[body | e] w2]; [reflexivity |].
  destruct (HTTPClient.is_url_error e); [| reflexivity].
  destruct (attempt =? max_retries (HTTPClient.config self) - 1)%Z; reflexivity.
Qed.

(** Every iteration starts with the gate and then makes its call. *)
Lemma fetch_loop_first_call (self : HTTPClient.t) (target : string) (rest : nat)
    (attempt : Z) (w : World) :
  exists w1 later,
    HTTPClient._enforce_delay self w
      = (Ok (HTTPClient.mk (HTTPClient.config self) (now w1)), w1)
    /\ trace (snd (HTTPClient.fetch_loop self target (S rest) attempt w))
       = (trace w1 ++ EvUrlopen target (user_agent (HTTPClient.config self))
                        (timeout (HTTPClient.config self)) (now w1) :: later)%list.
Proof.
  destruct (enforce_delay_records self w) as (w1 & evs & He & _).
  exists w1. rewrite (fetch_loop_step _ _ _ _ _ _ _ He). unfold urlopen.
  destruct (outcome (network w1 target (served w1))) as [body | e].
  - exists []. split; [exact He | reflexivity].
  - destruct (HTTPClient.is_url_error e); [| exists []; split; [exact He | reflexivity]].
    destruct (attempt =? max_retries (HTTPClient.config self) - 1)%Z;
      [exists []; split; [exact He | reflexivity] |].
    match goal with
    | |- context [HTTPClient.fetch_loop ?s target rest ?a ?w2] =>
        destruct (fetch_loop_trace_grows rest s target a w2) as (more & Hgrow)
    end.
    eexists. split; [exact He |]. rewrite Hgrow. cbn [time_sleep snd trace].
    rewrite <- !app_assoc. reflexivity.
Qed.

(** X8.  Between an attempt that is retried and the next one, the
    backoff and the pacing gate do not add up: the gate counts the
    backoff as elapsed time.  With [gap] the duration of the failed call
    plus its backoff [2 ^ attempt], the next call is dispatched [gap]
    after the previous one when [gap] is at least [delay], and exactly
    [delay] after it otherwise, the gate sleeping the difference. *)
Theorem backoff_and_gate_overlap (self : HTTPClient.t) (target : string) (rest : nat)
    (attempt : Z) (w : World) (e : Exc) :
  outcome (network w target (served w)) = Raise e ->
  HTTPClient.is_url_error e = true ->
  attempt <> max_retries (HTTPClient.config self) - 1 ->
  let cfg := HTTPClient.config self in
  let gap := (latency (network w target (served w)) + inject_Z (2 ^ attempt))%Q in
  exists w0 gate t1 later,
    HTTPClient._enforce_delay self w = (Ok (HTTPClient.mk cfg (now w0)), w0)
    /\ trace (snd (HTTPClient.fetch_loop self target (S (S rest)) attempt w))
       = (trace w0
          ++ [EvUrlopen target (user_agent cfg) (timeout cfg) (now w0);
              EvSleep (inject_Z (2 ^ attempt))]
          ++ gate ++ EvUrlopen target (user_agent cfg) (timeout cfg) t1 :: later)%list
    /\ (((delay cfg <= gap)%Q /\ gate = [] /\ (t1 == now w0 + gap)%Q)
        \/ ((gap < delay cfg)%Q
            /\ (exists secs, gate = [EvSleep secs] /\ (secs == delay cfg - gap)%Q)
            /\ (t1 == now w0 + delay cfg)%Q)).
Proof.
  intros Hout Hurl Hne cfg gap.
  destruct (enforce_delay_records self w) as (w0 & evs & He & Hs & Hn & _).
  exists w0. rewrite (fetch_loop_step _ _ _ _ _ _ _ He). unfold urlopen.
  rewrite Hs, Hn, Hout, Hurl.
  rewrite (proj2 (Z.eqb_neq _ _) Hne).
  cbn [time_sleep snd now served network fs open_error trace]. fold cfg.
  set (lat := latency (network w target (served w))) in *.
  set (backoff := inject_Z (2 ^ attempt)) in *.
  set (c0 := HTTPClient.mk cfg (now w0)).
  match goal with
  | |- context [HTTPClient.fetch_loop c0 target (S rest) (attempt + 1) ?wx] =>
      set (w3 := wx);
      destruct (fetch_loop_first_call c0 target rest (attempt + 1) w3) as (w1 & later & He1 & Ht1);
      destruct (enforce_delay_cases c0 w3) as [[Hlt Hgate] | [Hge Hgate]]
  end;
    cbn [HTTPClient.config HTTPClient.last_request_time c0] in *;
    rewrite Hgate in He1; injection He1 as Hnow Hw1.
  - exists [EvSleep (delay cfg - (now w3 - now w0))%Q], (now w1), later.
    split; [exact He |]. split.
    + rewrite Ht1, <- Hw1. cbn [trace w3]. rewrite <- !app_assoc. reflexivity.
    + right. rewrite <- Hw1. cbn [now w3] in *. unfold gap.
      split; [lra |]. split; [eexists; split; [reflexivity | lra] | lra].
  - exists [], (now w1), later. split; [exact He |]. split.
    + rewrite Ht1, <- Hw1. cbn [trace w3]. rewrite <- !app_assoc. reflexivity.
    + left. rewrite <- Hw1. cbn [now w3] in *. unfold gap.
      split; [lra |]. split; [reflexivity | lra].
Qed.

Lemma backoff_and_gate_overlap_witness :
  exists w0 gate t1 later,
    HTTPClient._enforce_delay (HTTPClient.__init__ three_tries) (world_at 100 net_down)
      = (Ok (HTTPClient.mk three_tries (now w0)), w0)
    /\ trace (snd (HTTPClient.fetch_loop (HTTPClient.__init__ three_tries)
                     "https://bad.example" 3 0 (world_at 100 net_down)))
       = (trace w0
          ++ [EvUrlopen "https://bad.example" "MyScraper/1.0" 10 (now w0);
              EvSleep (inject_Z (2 ^ 0))]
          ++ gate ++ EvUrlopen "https://bad.example" "MyScraper/1.0" 10 t1 :: later)%list
    /\ (((1 <= (1 # 2) + inject_Z (2 ^ 0))%Q /\ gate = []
         /\ (t1 == now w0 + ((1 # 2) + inject_Z (2 ^ 0)))%Q)
        \/ (((1 # 2) + inject_Z (2 ^ 0) < 1)%Q
            /\ (exists secs, gate = [EvSleep secs]
                             /\ (secs == 1 - ((1 # 2) + inject_Z (2 ^ 0)))%Q)
            /\ (t1 == now w0 + 1)%Q)).
Proof.
  apply (backoff_and_gate_overlap (HTTPClient.__init__ three_tries) "https://bad.example"
           1 0 (world_at 100 net_down) timed_out).
  - reflexivity.
  - reflexivity.
  - cbn. lia.
Defined.

(** ** How long a failing fetch blocks *)

Lemma inject_Z_sub (x y : Z) : inject_Z (x - y) = (inject_Z x - inject_Z y)%Q.
Proof. unfold Z.sub, Qminus. rewrite inject_Z_plus, inject_Z_opp. reflexivity. Qed.

Lemma pow2_next (a : Z) : (0 <= a)%Z -> (2 ^ (a + 1) = 2 * 2 ^ a)%Z.
Proof. intros Ha. rewrite Z.pow_add_r by lia. lia. Qed.

(** While the loop walks through [m] retried failures whose calls take
    no negative time, the clock advances by at least the backoffs
    [2 ^ attempt + ... + 2 ^ (attempt + m - 1)]. *)
Lemma fetch_loop_skip_clock (m : nat) :
  forall (self : HTTPClient.t) (target : string) (rest : nat) (attempt : Z)
         (w : World) (errs : nat -> Exc),
    fails_retriably w target m errs ->
    (forall j, (j < m)%nat -> (0 <= latency (network w target (served w + j)%nat))%Q) ->
    (0 <= attempt)%Z ->
    (attempt + Z.of_nat m < max_retries (HTTPClient.config self))%Z ->
    exists self' w',
      HTTPClient.fetch_loop self target (m + rest) attempt w =
        HTTPClient.fetch_loop self' target rest (attempt + Z.of_nat m) w'
      /\ HTTPClient.config self' = HTTPClient.config self
      /\ served w' = (served w + m)%nat /\ network w' = network w
      /\ (now w + inject_Z (2 ^ (attempt + Z.of_nat m) - 2 ^ attempt) <= now w')%Q.
Proof.
  induction m as [| m IH]; intros self target rest attempt w errs Hfail Hlat Ha Hlt.
  - exists self, w. rewrite Z.add_0_r, Nat.add_0_r, Z.sub_diag.
    repeat split; try reflexivity. unfold inject_Z. lra.
  - destruct (enforce_delay_records self w) as (w1 & evs & He & Hs & Hn & _ & _ & Hnow).
    cbn [Nat.add]. rewrite (fetch_loop_step _ _ _ _ _ _ _ He). unfold urlopen.
    destruct (Hfail 0%nat) as [Hout Hurl]; [lia |].
    pose proof (Hlat 0%nat ltac:(lia)) as Hlat0.
    rewrite Nat.add_0_r in Hout, Hlat0. rewrite Hs, Hn, Hout, Hurl.
    replace (attempt =? max_retries (HTTPClient.config self) - 1)%Z with false
      by (symmetry; apply Z.eqb_neq; lia).
    cbn [time_sleep snd now served network fs open_error trace].
    match goal with
    | |- context [HTTPClient.fetch_loop ?s target (m + rest) (attempt + 1) ?w2] =>
        destruct (IH s target rest (attempt + 1)%Z w2 (fun j => errs (S j)))
          as (self' & w' & Hrun & Hcfg & Hs' & Hn' & Hclock)
    end.
    + intros j Hj. cbn [served network]. destruct (Hfail (S j)) as [H1 H2]; [lia |].
      replace (S (served w) + j)%nat with (served w + S j)%nat by lia. split; assumption.
    + intros j Hj. cbn [served network].
      replace (S (served w) + j)%nat with (served w + S j)%nat by lia. apply Hlat. lia.
    + lia.
    + cbn [HTTPClient.config]. lia.
    + exists self', w'. rewrite Hrun.
      replace (attempt + 1 + Z.of_nat m)%Z with (attempt + Z.of_nat (S m))%Z in * by lia.
      split; [reflexivity |]. split; [exact Hcfg |].
      split; [rewrite Hs'; cbn [served]; lia |]. split; [exact Hn' |].
      cbn [now] in Hclock. rewrite (pow2_next attempt Ha) in Hclock.
      rewrite inject_Z_sub in *. rewrite inject_Z_mult in Hclock.
      set (p := inject_Z (2 ^ attempt)) in *.
      set (q := inject_Z (2 ^ (attempt + Z.of_nat (S m)))) in *.
      change (inject_Z 2) with 2%Q in Hclock. lra.
Qed.

(** X9.  Exponential backoff has no cap: when all [k = max_retries]
    attempts fail with retriable errors (and no call takes negative
    time), [fetch] returns only after at least
    [1 + 2 + ... + 2 ^ (k - 2) = 2 ^ (k - 1) - 1] seconds. *)
Theorem failing_fetch_blocks (Request_error : string -> option Exc) (self : HTTPClient.t)
    (target : string) (w : World) (errs : nat -> Exc) :
  let k := max_retries (HTTPClient.config self) in
  (1 <= k)%Z ->
  Request_error target = None ->
  fails_retriably w target (Z.to_nat k) errs ->
  (forall j, (j < Z.to_nat k)%nat ->
             (0 <= latency (network w target (served w + j)%nat))%Q) ->
  (now w + inject_Z (2 ^ (k - 1) - 1)
   <= now (snd (HTTPClient.fetch Request_error self target w)))%Q.
Proof.
  intros k Hk Hreq Hfail Hlat.
  rewrite (fetch_built _ _ _ _ Hreq). fold k.
  replace (Z.to_nat k) with (Z.to_nat k - 1 + 1)%nat at 1 by lia.
  destruct (fetch_loop_skip_clock (Z.to_nat k - 1) self target 1 0 w errs)
    as (self' & w' & Hrun & Hcfg & Hs & Hn & Hclock).
  - intros j Hj. apply Hfail. lia.
  - intros j Hj. apply Hlat. lia.
  - lia.
  - fold k. lia.
  - rewrite Hrun. clear Hrun.
    replace (0 + Z.of_nat (Z.to_nat k - 1))%Z with (k - 1)%Z in * by lia.
    change (2 ^ 0)%Z with 1%Z in Hclock.
    destruct (enforce_delay_records self' w') as (w1 & evs & He & Hs1 & Hn1 & _ & _ & Hnow).
    rewrite (fetch_loop_step _ _ _ _ _ _ _ He). unfold urlopen.
    pose proof (Hlat (Z.to_nat k - 1)%nat ltac:(lia)) as Hlast.
    rewrite Hs1, Hn1, Hs, Hn.
    destruct (outcome (network w target (served w + (Z.to_nat k - 1))%nat)) as [body | e];
      [cbn [snd now]; lra |].
    destruct (HTTPClient.is_url_error e); [| cbn [snd now]; lra].
    rewrite Hcfg. fold k. rewrite Z.eqb_refl. cbn [snd now]. lra.
Qed.

Lemma failing_fetch_blocks_witness :
  (100 + inject_Z (2 ^ (3 - 1) - 1)
   <= now (snd (HTTPClient.fetch no_request_error (HTTPClient.__init__ three_tries)
                  "https://bad.example" (world_at 100 net_down))))%Q.
Proof.
  apply (failing_fetch_blocks no_request_error (HTTPClient.__init__ three_tries)
           "https://bad.example" (world_at 100 net_down) (fun _ => timed_out)).
  - cbn. lia.
  - reflexivity.
  - intros j _. split; reflexivity.
  - intros j _. cbn. discriminate.
Defined.

(** ** What one scrape and the loop leave behind *)

(** [fetch] leaves the files, the network script and what can be opened
    as they were, and makes at most [max_retries] calls. *)
Lemma fetch_frame (Request_error : string -> option Exc) (self : HTTPClient.t)
    (target : string) (w : World) :
  let w' := snd (HTTPClient.fetch Request_error self target w) in
  (served w <= served w' <= served w + Z.to_nat (max_retries (HTTPClient.config self)))%nat
  /\ network w' = network w /\ fs w' = fs w /\ open_error w' = open_error w.
Proof.
  cbn zeta. unfold HTTPClient.fetch. destruct (Request_error target) as [e |].
  - cbn. repeat split; lia.
  - destruct (fetch_loop_frame (Z.to_nat (max_retries (HTTPClient.config self))) self target 0 w)
      as (Hs & Hn & Hf & Ho & _).
    cbn zeta in *. auto.
Qed.

Lemma scrape_url_frame (Request_error : string -> option Exc)
    (goahead : Scanner) (target : string) (cfg : ScraperConfig)
    (w : World) :
  exists r w',
    scrape_url Request_error goahead target cfg w = (Ok r, w')
    /\ url r = target /\ data r = None /\ is_Some (error r)
    /\ (served w <= served w' <= served w + Z.to_nat (max_retries cfg))%nat
    /\ network w' = network w /\ fs w' = fs w /\ open_error w' = open_error w.
Proof.
  rewrite scrape_url_cases.
  pose proof (fetch_frame Request_error (HTTPClient.__init__ cfg) target w) as Hframe.
  cbn zeta in Hframe. cbn [HTTPClient.__init__ HTTPClient.config] in Hframe.
  destruct (HTTPClient.fetch Request_error (HTTPClient.__init__ cfg) target w) as [[html | e] w1];
    cbn [snd] in Hframe; destruct Hframe as (Hs & Hn & Hf & Ho);
    eexists _, _; (split; [reflexivity |]); cbn [url data error emit served network fs open_error];
    repeat split; eauto; lia.
Qed.

(** X10.  [scrape_url] never returns extracted data: whatever the
    network answers, the outcome has no data and carries an error text.
    Its status is 200 exactly when [fetch] returned, and none otherwise;
    no file is touched. *)
Theorem scrape_url_never_returns_data (Request_error : string -> option Exc)
    (goahead : Scanner) (target : string) (cfg : ScraperConfig)
    (w : World) :
  exists r w',
    scrape_url Request_error goahead target cfg w = (Ok r, w')
    /\ data r = None /\ is_Some (error r)
    /\ status r =
         match fst (HTTPClient.fetch Request_error (HTTPClient.__init__ cfg) target w) with
         | Ok _ => Some 200
         | Raise _ => None
         end
    /\ fs w' = fs w.
Proof.
  rewrite scrape_url_cases.
  pose proof (fetch_frame Request_error (HTTPClient.__init__ cfg) target w) as Hframe.
  cbn zeta in Hframe.
  destruct (HTTPClient.fetch Request_error (HTTPClient.__init__ cfg) target w) as [[html | e] w1];
    cbn [snd fst] in *; destruct Hframe as (_ & _ & Hf & _);
    eexists _, _; (split; [reflexivity |]); cbn [data error status emit fs]; eauto.
Qed.

Lemma main_loop_frame (Request_error : string -> option Exc)
    (goahead : Scanner) (cfg : ScraperConfig) (urls : list string) :
  forall (acc : list ScrapingResult) (w : World),
  exists new w',
    main_loop Request_error goahead urls cfg acc w = (Ok (acc ++ new)%list, w')
    /\ map url new = urls
    /\ Forall (fun r => data r = None /\ is_Some (error r)) new
    /\ (served w <= served w'
        <= served w + List.length urls * Z.to_nat (max_retries cfg))%nat
    /\ network w' = network w /\ fs w' = fs w /\ open_error w' = open_error w.
Proof.
  induction urls as [| target rest IH]; intros acc w.
  - exists [], w. rewrite app_nil_r. cbn. repeat split; auto; lia.
  - cbn [main_loop]. unfold bind at 1.
    destruct (scrape_url_frame Request_error goahead target cfg w)
      as (r & w1 & Hr & Hu & Hd & He & Hs & Hn & Hf & Ho).
    rewrite Hr. unfold bind at 1. cbn [Logger.log_info].
    match goal with
    | |- context [main_loop _ _ rest cfg ?a ?w2] =>
        destruct (IH a w2) as (new & w' & Hrun & Hmap & Hall & Hs' & Hn' & Hf' & Ho')
    end.
    cbn [emit served network fs open_error] in *.
    exists (r :: new), w'. rewrite Hrun. split; [rewrite <- app_assoc; reflexivity |].
    split; [cbn; rewrite Hu, Hmap; reflexivity |].
    split; [constructor; [split; assumption | exact Hall] |].
    split; [cbn [List.length]; lia |].
    split; [congruence |]. split; congruence.
Qed.

(** X11.  The loop over the URLs touches no file and makes at most
    [N * max_retries] network calls for [N] URLs, and none of the
    outcomes it collects carries data: each has an error text. *)
Theorem main_loop_effects (Request_error : string -> option Exc)
    (goahead : Scanner) (urls : list string) (cfg : ScraperConfig)
    (w : World) :
  exists results w',
    main_loop Request_error goahead urls cfg [] w = (Ok results, w')
    /\ Forall (fun r => data r = None /\ is_Some (error r)) results
    /\ (served w' <= served w + List.length urls * Z.to_nat (max_retries cfg))%nat
    /\ fs w' = fs w.
Proof.
  destruct (main_loop_frame Request_error goahead cfg urls [] w)
    as (new & w' & Hrun & _ & Hall & Hs & _ & Hf & _).
  exists new, w'. split; [exact Hrun |]. split; [exact Hall |]. split; [lia | exact Hf].
Qed.

(** ** More on the result sink *)

(** The row loop writes to its file only, whether it completes or stops
    at a row it cannot build. *)
Lemma write_rows_frame (path : string) (results : list ScrapingResult) :
  forall w : World,
    let w' := snd (ResultHandler.write_rows path results w) in
    (forall p, p <> path -> fs w' !! p = fs w !! p)
    /\ now w' = now w /\ served w' = served w.
Proof.
  induction results as [| o rest IH]; intros w; cbn zeta.
  - cbn. auto.
  - cbn [ResultHandler.write_rows]. unfold bind at 1, lift.
    destruct (ResultHandler.csv_row o) as [row | e]; [| cbn; auto].
    unfold bind at 1, file_write.
    match goal with
    | |- context [ResultHandler.write_rows path rest ?w2] =>
        destruct (IH w2) as (Hf & Hn & Hs)
    end.
    cbn zeta in *. cbn [fs now served] in *. split; [| split; assumption].
    intros p Hp. rewrite (Hf p Hp). apply lookup_insert_ne. congruence.
Qed.

(** The chunk loop returns normally, having appended every chunk to its
    file, one write each and in order, and touched nothing else. *)
Lemma write_chunks_spec (path : string) (chunks : list string) :
  forall (w : World) (content : string),
    fs w !! path = Some content ->
    exists w',
      ResultHandler.write_chunks path chunks w = (Ok tt, w')
      /\ fs w' !! path = Some (content ++ chunks_text chunks)%string
      /\ (forall p, p <> path -> fs w' !! p = fs w !! p)
      /\ now w' = now w /\ served w' = served w
      /\ trace w' = (trace w ++ map (EvWrite path) chunks)%list.
Proof.
  induction chunks as [| chunk rest IH]; intros w content Hc.
  - exists w. cbn [ResultHandler.write_chunks ret chunks_text fold_right map].
    rewrite append_nil_r, app_nil_r. auto 7.
  - cbn [ResultHandler.write_chunks]. unfold bind at 1, file_write.
    match goal with
    | |- context [ResultHandler.write_chunks path rest ?w2] =>
        destruct (IH w2 (content ++ chunk)%string)
          as (w' & Hrun & Hfile & Hother & Hn & Hs & Ht)
    end.
    + cbn [fs]. rewrite Hc. cbn [default]. apply lookup_insert_eq.
    + exists w'. split; [exact Hrun |]. split.
      * rewrite Hfile. unfold chunks_text. cbn [fold_right].
        rewrite append_assoc. reflexivity.
      * split; [intros p Hp; rewrite (Hother p Hp); cbn [fs];
                apply lookup_insert_ne; congruence |].
        split; [exact Hn |]. split; [exact Hs |].
        rewrite Ht. cbn [trace map]. rewrite <- app_assoc. reflexivity.
Qed.

(** X12.  In every format, for every list of outcomes, and whether it
    returns or raises, [save_results] changes no file other than the
    configured destination, makes no network call and does not
    sleep. *)
Theorem save_results_touches_only_destination (json_chunks : Encoder)
    (results : list ScrapingResult) (cfg : ScraperConfig) (w : World) :
  let w' := snd (ResultHandler.save_results json_chunks results cfg w) in
  (forall p, p <> output_path cfg -> fs w' !! p = fs w !! p)
  /\ now w' = now w /\ served w' = served w.
Proof.
  cbn zeta. unfold ResultHandler.save_results.
  destruct (decide (output_format cfg = "json")) as [Hj | Hj].
  - unfold bind, open_w.
    destruct (open_error w (output_path cfg)) as [e |]; [cbn; auto |].
    cbn beta iota.
    match goal with
    | |- context [ResultHandler.write_chunks _ _ ?w2] =>
        destruct (write_chunks_spec (output_path cfg) (json_chunks results) w2 "")
          as (w' & Hrun & _ & Hother & Hn & Hs & _)
    end.
    + cbn [fs]. apply lookup_insert_eq.
    + rewrite Hrun. cbn [snd]. cbn [fs now served] in *. split; [| split; assumption].
      intros p Hp. rewrite (Hother p Hp). apply lookup_insert_ne. congruence.
  - destruct (decide (output_format cfg = "csv")) as [Hc | Hc]; [| cbn; auto].
    unfold bind, open_w.
    destruct (open_error w (output_path cfg)) as [e |]; [cbn; auto |].
    unfold file_write. cbn beta iota.
    match goal with
    | |- context [ResultHandler.write_rows _ results ?w2] =>
        destruct (write_rows_frame (output_path cfg) results w2) as (Hf & Hn & Hs)
    end.
    cbn zeta in *. cbn [fs now served] in *. split; [| split; assumption].
    intros p Hp. rewrite (Hf p Hp). rewrite !lookup_insert_ne by congruence. reflexivity.
Qed.

(** X13.  With the json format and a destination that can be opened,
    [save_results] returns normally: it opens the destination, which
    empties it, and then writes the chunks the encoder yields for the
    outcomes, one write per chunk and in order, and nothing else.  The
    destination then holds exactly the chunks put together: what the
    file held before is gone. *)
Theorem json_file_replaced (json_chunks : Encoder)
    (results : list ScrapingResult) (cfg : ScraperConfig) (w : World) :
  output_format cfg = "json" ->
  open_error w (output_path cfg) = None ->
  exists w',
    ResultHandler.save_results json_chunks results cfg w = (Ok tt, w')
    /\ fs w' !! output_path cfg = Some (chunks_text (json_chunks results))
    /\ trace w' = (trace w ++ EvOpen (output_path cfg)
                             :: map (EvWrite (output_path cfg)) (json_chunks results))%list.
Proof.
  intros Hfmt Hopen. unfold ResultHandler.save_results.
  destruct (decide (output_format cfg = "json")) as [_ | Hbad]; [| contradiction].
  unfold bind, open_w. rewrite Hopen.
  match goal with
  | |- context [ResultHandler.write_chunks _ _ ?w2] =>
      destruct (write_chunks_spec (output_path cfg) (json_chunks results) w2 "")
        as (w' & Hrun & Hfile & _ & _ & _ & Ht)
  end.
  - cbn [fs]. apply lookup_insert_eq.
  - exists w'. split; [exact Hrun |]. split; [exact Hfile |].
    rewrite Ht. cbn [trace]. rewrite <- app_assoc. reflexivity.
Qed.

Lemma json_file_replaced_witness :
  let w := mkWorld 100 0 net_up {[ "results.json" := "old text" ]} (fun _ => None) [] in
  exists w',
    ResultHandler.save_results no_json [fetch_failed] main_config w = (Ok tt, w')
    /\ fs w' !! "results.json" = Some "[]"
    /\ trace w' = [EvOpen "results.json"; EvWrite "results.json" "[";
                   EvWrite "results.json" "]"].
Proof.
  intros w.
  destruct (json_file_replaced no_json [fetch_failed] main_config w)
    as (w' & Hrun & Hfile & Ht).
  - reflexivity.
  - reflexivity.
  - exists w'. split; [exact Hrun |]. split; [exact Hfile | exact Ht].
Defined.

(** X14.  When the destination cannot be opened, in the json or the csv
    format, [save_results] raises the error of [open] and leaves the
    world as it found it: nothing is written anywhere. *)
Theorem unopenable_destination_aborts (json_chunks : Encoder)
    (results : list ScrapingResult) (cfg : ScraperConfig) (w : World) (e : Exc) :
  output_format cfg = "json" \/ output_format cfg = "csv" ->
  open_error w (output_path cfg) = Some e ->
  ResultHandler.save_results json_chunks results cfg w = (Raise e, w).
Proof.
  intros Hfmt Hopen. unfold ResultHandler.save_results.
  destruct (decide (output_format cfg = "json")) as [Hjson | Hjson].
  - unfold bind, open_w. rewrite Hopen. reflexivity.
  - destruct Hfmt as [Hj | Hc]; [contradiction |].
    destruct (decide (output_format cfg = "csv")) as [Hcsv | Hcsv]; [| contradiction].
    unfold bind at 1, open_w. rewrite Hopen. reflexivity.
Qed.

Lemma unopenable_destination_aborts_witness :
  let denied := mkExc OSError "[Errno 13] Permission denied" in
  let w := mkWorld 100 0 net_up ∅ (fun _ => Some denied) [] in
  ResultHandler.save_results no_json [fetched_ok] csv_output w = (Raise denied, w).
Proof.
  intros denied w.
  apply (unopenable_destination_aborts no_json [fetched_ok] csv_output w denied).
  - right. reflexivity.
  - reflexivity.
Defined.

Lemma join_non_string (sep : string) (items : list AttrValue) :
  forallb (fun v => match v with Some _ => true | None => false end) items = false ->
  forall i, exists e, join_from sep i items = Raise e /\ exc_class e = TypeError.
Proof.
  induction items as [| [s |] rest IH]; intros Hall i; [discriminate Hall | |].
  - cbn [forallb andb] in Hall. cbn [join_from].
    destruct rest as [| v rest']; [discriminate Hall |].
    destruct (IH Hall (i + 1)%Z) as (e & He & Hclass). rewrite He.
    exists e. split; [reflexivity | exact Hclass].
  - eexists. split; reflexivity.
Qed.

Lemma csv_row_non_string (o : ScrapingResult) :
  links_are_strings o = false ->
  exists e, ResultHandler.csv_row o = Raise e /\ exc_class e = TypeError.
Proof.
  unfold links_are_strings, ResultHandler.csv_row, join. intros Hl.
  destruct (data o) as [d |]; [| discriminate Hl].
  cbn [ResultHandler.truthy_data].
  destruct (join_non_string ", " (links d) Hl 0) as (e & He & Hclass). rewrite He.
  exists e. split; [reflexivity | exact Hclass].
Qed.

Lemma write_rows_stops (path : string) (good : list ScrapingResult) (bad : ScrapingResult)
    (rest : list ScrapingResult) :
  forallb links_are_strings good = true ->
  links_are_strings bad = false ->
  forall (w : World) (content : string),
    fs w !! path = Some content ->
    exists e w',
      ResultHandler.write_rows path (good ++ bad :: rest) w = (Raise e, w')
      /\ exc_class e = TypeError
      /\ fs w' !! path =
           Some (content ++ fold_right String.append ""
                   (map (fun o => csv_writerow (spec_csv_row o)) good))%string.
Proof.
  intros Hgood Hbad. induction good as [| o good IH]; intros w content Hc.
  - cbn [app ResultHandler.write_rows]. unfold bind at 1, lift.
    destruct (csv_row_non_string bad Hbad) as (e & He & Hclass). rewrite He.
    exists e, w. cbn. rewrite append_nil_r. auto.
  - cbn [forallb] in Hgood. apply andb_prop in Hgood as [Ho Hgood].
    cbn [app ResultHandler.write_rows]. unfold bind at 1, lift. rewrite (csv_row_spec o Ho).
    unfold bind at 1, file_write.
    match goal with
    | |- context [ResultHandler.write_rows path _ ?w2] =>
        destruct (IH Hgood w2 (content ++ csv_writerow (spec_csv_row o))%string)
          as (e & w' & Hrun & Hclass & Hfile)
    end.
    + cbn [fs]. rewrite Hc. cbn [default]. apply lookup_insert_eq.
    + exists e, w'. split; [exact Hrun |]. split; [exact Hclass |].
      rewrite Hfile. cbn [map fold_right]. rewrite append_assoc. reflexivity.
Qed.

(** X15.  The csv branch has no recovery from a row it cannot build: at
    the first outcome whose record holds a link that is not a string,
    [save_results] raises [TypeError], and the destination is left with
    the header and the rows of the outcomes before it only. *)
Theorem csv_stops_at_first_bad_row (json_chunks : Encoder)
    (good rest : list ScrapingResult) (bad : ScrapingResult) (cfg : ScraperConfig)
    (w : World) :
  output_format cfg = "csv" ->
  open_error w (output_path cfg) = None ->
  forallb links_are_strings good = true ->
  links_are_strings bad = false ->
  exists e w',
    ResultHandler.save_results json_chunks (good ++ bad :: rest) cfg w = (Raise e, w')
    /\ exc_class e = TypeError
    /\ fs w' !! output_path cfg = Some (spec_csv_text good).
Proof.
  intros Hfmt Hopen Hgood Hbad. unfold ResultHandler.save_results. rewrite Hfmt.
  destruct (decide ("csv" = "json")) as [Hno | _]; [discriminate Hno |].
  destruct (decide ("csv" = "csv")) as [_ | Hno]; [| contradiction].
  unfold bind at 1, open_w. rewrite Hopen. unfold bind at 1, file_write.
  match goal with
  | |- context [ResultHandler.write_rows _ _ ?w2] =>
      destruct (write_rows_stops (output_path cfg) good bad rest Hgood Hbad w2
                  ("URL,Status,Title,Links,Error" ++ lineterminator)%string)
        as (e & w' & Hrun & Hclass & Hfile)
  end.
  - cbn [fs]. rewrite !lookup_insert_eq. reflexivity.
  - exists e, w'. split; [exact Hrun |]. split; [exact Hclass | exact Hfile].
Qed.

Lemma csv_stops_at_first_bad_row_witness :
  exists e w',
    ResultHandler.save_results no_json ([fetched_ok; fetch_failed] ++ valueless_href :: [fetched_ok])
      csv_output (world_at 100 net_up) = (Raise e, w')
    /\ exc_class e = TypeError
    /\ fs w' !! "results.csv" = Some (spec_csv_text [fetched_ok; fetch_failed]).
Proof.
  apply (csv_stops_at_first_bad_row no_json [fetched_ok; fetch_failed] [fetched_ok]
           valueless_href csv_output (world_at 100 net_up)); reflexivity.
Defined.

(** ** The pipeline end to end *)

(** The csv branch on outcomes whose links are strings. *)
Lemma save_csv_spec (json_chunks : Encoder)
    (results : list ScrapingResult) (cfg : ScraperConfig) (w : World) :
  output_format cfg = "csv" ->
  open_error w (output_path cfg) = None ->
  forallb links_are_strings results = true ->
  exists w',
    ResultHandler.save_results json_chunks results cfg w = (Ok tt, w')
    /\ fs w' !! output_path cfg = Some (spec_csv_text results).
Proof.
  intros Hfmt Hopen Hall. unfold ResultHandler.save_results. rewrite Hfmt.
  destruct (decide ("csv" = "json")) as [Hno | _]; [discriminate Hno |].
  destruct (decide ("csv" = "csv")) as [_ | Hno]; [| contradiction].
  unfold bind at 1, open_w. rewrite Hopen. unfold bind at 1, file_write.
  match goal with
  | |- context [ResultHandler.write_rows _ results ?w2] =>
      destruct (write_rows_spec (output_path cfg) results Hall w2
                  ("URL,Status,Title,Links,Error" ++ lineterminator)%string)
        as (w' & Hrun & Hfile & _)
  end.
  - cbn [fs]. rewrite !lookup_insert_eq. reflexivity.
  - exists w'. split; [exact Hrun | exact Hfile].
Qed.

Lemma failed_outcomes_have_string_links (results : list ScrapingResult) :
  Forall (fun r => data r = None /\ is_Some (error r)) results ->
  forallb links_are_strings results = true.
Proof.
  induction 1 as [| r results [Hd _] _ IH]; [reflexivity |].
  cbn [forallb]. unfold links_are_strings at 1. rewrite Hd, IH. reflexivity.
Qed.

(** X16.  Outcomes collected by the loop always serialise to csv: with
    the csv format and a destination that can be opened, running the
    loop and then [save_results] returns normally, for any URLs and any
    network, and every row written has empty title and links cells. *)
Theorem loop_outcomes_serialise_to_csv (Request_error : string -> option Exc)
    (goahead : Scanner) (json_chunks : Encoder)
    (urls : list string) (cfg : ScraperConfig) (w : World) :
  output_format cfg = "csv" ->
  open_error w (output_path cfg) = None ->
  exists results w1 w2,
    main_loop Request_error goahead urls cfg [] w = (Ok results, w1)
    /\ ResultHandler.save_results json_chunks results cfg w1 = (Ok tt, w2)
    /\ fs w2 !! output_path cfg = Some (spec_csv_text results)
    /\ map url results = urls
    /\ Forall (fun r => exists msg,
                 spec_csv_row r =
                   [ CellStr (url r);
                     match status r with Some n => CellInt n | None => CellNone end;
                     CellStr ""; CellStr ""; CellStr msg ]) results.
Proof.
  intros Hfmt Hopen.
  destruct (main_loop_frame Request_error goahead cfg urls [] w)
    as (results & w1 & Hrun & Hmap & Hall & _ & _ & _ & Ho).
  destruct (save_csv_spec json_chunks results cfg w1 Hfmt) as (w2 & Hsave & Hfile).
  - rewrite Ho. exact Hopen.
  - apply failed_outcomes_have_string_links. exact Hall.
  - exists results, w1, w2. split; [exact Hrun |]. split; [exact Hsave |].
    split; [exact Hfile |]. split; [exact Hmap |].
    eapply Forall_impl; [exact Hall |].
    intros r [Hd [msg He]]. exists msg. unfold spec_csv_row. rewrite Hd, He. reflexivity.
Qed.

Lemma loop_outcomes_serialise_to_csv_witness :
  exists results w1 w2,
    main_loop no_request_error sample_scan ["https://good.example"; "https://bad.example"]
      csv_output [] (world_at 100 net_flaky) = (Ok results, w1)
    /\ ResultHandler.save_results no_json results csv_output w1 = (Ok tt, w2)
    /\ fs w2 !! "results.csv" = Some (spec_csv_text results)
    /\ map url results = ["https://good.example"; "https://bad.example"].
Proof.
  destruct (loop_outcomes_serialise_to_csv no_request_error sample_scan no_json
              ["https://good.example"; "https://bad.example"] csv_output
              (world_at 100 net_flaky))
    as (results & w1 & w2 & Hrun & Hsave & Hfile & Hmap & _).
  - reflexivity.
  - reflexivity.
  - exists results, w1, w2. auto.
Defined.

(** X17.  [main] as a whole: when [results.json] can be opened, it
    returns normally for any network, having written to [results.json]
    the encoder's text, chunk after chunk, for exactly two outcomes,
    those of the two example URLs in order, neither carrying data; it
    changes no other file. *)
Theorem main_writes_two_failed_outcomes (Request_error : string -> option Exc)
    (goahead : Scanner) (json_chunks : Encoder)
    (w : World) :
  open_error w "results.json" = None ->
  exists results w',
    main Request_error goahead json_chunks w = (Ok tt, w')
    /\ fs w' !! "results.json" = Some (chunks_text (json_chunks results))
    /\ map url results = ["https://example.com"; "https://example.org"]
    /\ Forall (fun r => data r = None /\ is_Some (error r)) results
    /\ forall p, p <> "results.json" -> fs w' !! p = fs w !! p.
Proof.
  intros Hopen. unfold main, bind at 1. cbn [Logger.setup_logging ret]. unfold bind at 1.
  destruct (main_loop_frame Request_error goahead main_config main_urls [] w)
    as (results & w1 & Hrun & Hmap & Hall & _ & _ & Hf & Ho).
  rewrite Hrun. cbn [app]. unfold bind at 1, save_results, ResultHandler.save_results.
  cbn [main_config output_format output_path].
  destruct (decide ("json" = "json")) as [_ | Hno]; [| contradiction].
  unfold bind, open_w. rewrite Ho, Hopen.
  match goal with
  | |- context [ResultHandler.write_chunks _ _ ?w2] =>
      destruct (write_chunks_spec "results.json" (json_chunks results) w2 "")
        as (w3 & Hsave & Hfile & Hother & _)
  end.
  - cbn [fs]. apply lookup_insert_eq.
  - rewrite Hsave. cbn [Logger.log_info].
    exists results. eexists. split; [reflexivity |]. cbn [emit fs].
    split; [exact Hfile |]. split; [exact Hmap |]. split; [exact Hall |].
    intros p Hp. rewrite (Hother p Hp). cbn [fs].
    rewrite lookup_insert_ne by congruence. rewrite Hf. reflexivity.
Qed.

Lemma main_writes_two_failed_outcomes_witness :
  exists results w',
    main no_request_error sample_scan no_json (world_at 100 net_up) = (Ok tt, w')
    /\ fs w' !! "results.json" = Some "[]"
    /\ map url results = ["https://example.com"; "https://example.org"].
Proof.
  destruct (main_writes_two_failed_outcomes no_request_error sample_scan no_json
              (world_at 100 net_up)) as (results & w' & Hrun & Hfile & Hmap & _).
  - reflexivity.
  - exists results, w'. auto.
Defined.
